(** * learnopengl-learning1: the "hello triangle" program of [src/main.cpp]

    The program is one [main] that talks to three libraries (GLFW for the
    window, glad for the function table, OpenGL for rendering) plus the two
    helpers [framebuffer_size_callback] and [processInput].

    The embedding is a state monad over a [World]: every library call the
    source makes appends one [Event] to the [calls] of the world and updates
    the part of the window / OpenGL state that the call sets.  What the
    libraries decide on their own (does the window open, does a shader
    compile, which key is down, which events arrive) is read from an
    environment [Env]; the theorems quantify over it. *)

From Stdlib Require Import ZArith QArith Ascii String List Bool Lia.
From stdpp Require Import base option gmap strings list.

Local Open Scope Z_scope.

(** ** Constants and enumerations of the two APIs (only those the source names) *)

Inductive ShaderType : Set := GL_VERTEX_SHADER | GL_FRAGMENT_SHADER.
Inductive ShaderParam : Set := GL_COMPILE_STATUS.
Inductive ProgramParam : Set := GL_LINK_STATUS.
Inductive BufferTarget : Set := GL_ARRAY_BUFFER.
Inductive BufferUsage : Set := GL_STREAM_DRAW | GL_STATIC_DRAW | GL_DYNAMIC_DRAW.
Inductive DataType : Set := GL_FLOAT.
Inductive DrawMode : Set := GL_TRIANGLES.
Inductive ClearMask : Set := GL_COLOR_BUFFER_BIT | GL_DEPTH_BUFFER_BIT | GL_STENCIL_BUFFER_BIT.
Inductive WindowHint : Set :=
  GLFW_CONTEXT_VERSION_MAJOR | GLFW_CONTEXT_VERSION_MINOR | GLFW_OPENGL_PROFILE.
Inductive Key : Set := GLFW_KEY_ESCAPE.
Inductive KeyState : Set := GLFW_RELEASE | GLFW_PRESS.

Definition GLFW_OPENGL_CORE_PROFILE : Z := 0x00032001.
Definition GL_FALSE : Z := 0.
Definition GL_TRUE : Z := 1.

(** [sizeof(float)] on the targets the program is built for. *)
Definition sizeof_float : Z := 4.

(** The one window of a run; a [NULL] window pointer is [None]. *)
Inductive GLFWwindow : Set := the_window.

(** What the windowing system can hand to [glfwPollEvents]. *)
Inductive WindowEvent : Set :=
| FramebufferSize (width height : Z)
| CloseRequest.

(** ** Text *)

Definition nl : string := String "010"%char EmptyString.
Definition tab : string := String "009"%char EmptyString.
Definition nul : string := String "000"%char EmptyString.
Definition endl : string := nl.

(** A [const char*] read as a C string: the characters before the first NUL. *)
Fixpoint c_str (s : string) : string :=
  match s with
  | EmptyString => EmptyString
  | String c rest => if Ascii.eqb c "000"%char then EmptyString else String c (c_str rest)
  end.

(** What a [glGet...InfoLog] call with buffer size [bufSize] writes: at most
    [bufSize - 1] characters of the log. *)
Definition copy_log (bufSize : Z) (log : string) : string :=
  String.substring 0 (Z.to_nat (bufSize - 1)) log.

(* basic vertex shader *)
Definition vertexShaderSource : string :=
  "#version 330 core" +:+ nl +:+
  "layout (location = 0) in vec3 aPos;" +:+ nl +:+
  "void main()" +:+ nl +:+
  "{" +:+ nl +:+
  "   gl_Position = vec4(aPos.x, aPos.y, aPos.z, 1.0);" +:+ nl +:+
  "}" +:+ nul.

(* basic fragment shader *)
Definition fragmentShaderSource : string :=
  "#version 330 core" +:+ nl +:+
  "out vec4 FragColor;" +:+ nl +:+
  "void main()" +:+ nl +:+
  "{" +:+ nl +:+
  tab +:+ "FragColor = vec4(1.0f, 0.5f, 0.2f, 1.0f);" +:+ nl +:+
  "}" +:+ nul.

(** ** OpenGL objects *)

Record ShaderObj := mkShader {
  sh_type : ShaderType;
  sh_source : string;
  sh_compile_status : bool;
  sh_info_log : string;
  sh_delete_status : bool   (* set by glDeleteShader *)
}.

Record ProgramObj := mkProgram {
  pr_attached : list N;
  pr_link_status : bool;
  pr_info_log : string
}.

(** Float literals of the source are kept as the exact decimals written. *)
Record BufferObj := mkBuffer {
  buf_size : Z;              (* bytes *)
  buf_data : list Q;
  buf_usage : BufferUsage
}.

Record AttribConfig := mkAttrib {
  at_enabled : bool;
  at_size : Z;               (* components per vertex *)
  at_type : DataType;
  at_normalized : bool;
  at_stride : Z;             (* bytes *)
  at_offset : Z;             (* bytes *)
  at_buffer : N              (* the buffer captured by glVertexAttribPointer *)
}.

Definition default_attrib : AttribConfig := mkAttrib false 4 GL_FLOAT false 0 0 0%N.

Record Viewport := mkViewport { vp_x : Z; vp_y : Z; vp_width : Z; vp_height : Z }.

Record Color := mkColor { red : Q; green : Q; blue : Q; alpha : Q }.

(** What a draw call was issued with. *)
Record DrawRecord := mkDraw {
  dr_program : N;            (* the current program when the draw was issued; 0: none *)
  dr_program_linked : bool;  (* its link-success flag then; false when there is none *)
  dr_vertex_array : N;
  dr_mode : DrawMode;
  dr_first : Z;
  dr_count : Z
}.

(** Rendering commands that reached the back buffer since the last swap. *)
Inductive RenderOp : Set :=
| Cleared (c : Color)
| Drew (d : DrawRecord).

(** ** Calls *)

Inductive Event : Set :=
| E_glfwInit
| E_glfwWindowHint (hint : WindowHint) (value : Z)
| E_glfwCreateWindow (width height : Z) (title : string)
| E_glfwTerminate
| E_glfwMakeContextCurrent
| E_glfwSetFramebufferSizeCallback
| E_gladLoadGLLoader
| E_cout (text : string)
| E_glCreateShader (type : ShaderType)
| E_glShaderSource (shader : N) (source : string)
| E_glCompileShader (shader : N)
| E_glGetShaderiv (shader : N) (pname : ShaderParam)
| E_glGetShaderInfoLog (shader : N) (bufSize : Z)
| E_glCreateProgram
| E_glAttachShader (program shader : N)
| E_glLinkProgram (program : N)
| E_glUseProgram (program : N)
| E_glDeleteShader (shader : N)
| E_glGetProgramiv (program : N) (pname : ProgramParam)
| E_glGetProgramInfoLog (program : N) (bufSize : Z)
| E_glGenBuffers (n : Z)
| E_glGenVertexArrays (n : Z)
| E_glBindVertexArray (array : N)
| E_glBindBuffer (target : BufferTarget) (buffer : N)
| E_glBufferData (target : BufferTarget) (size : Z) (data : list Q) (usage : BufferUsage)
| E_glVertexAttribPointer (index : N) (size : Z) (type : DataType)
                          (normalized : bool) (stride : Z) (pointer : Z)
| E_glEnableVertexAttribArray (index : N)
| E_glViewport (x y width height : Z)
| E_glClearColor (r g b a : Q)
| E_glClear (mask : ClearMask)
| E_glDrawArrays (mode : DrawMode) (first count : Z)
| E_glfwWindowShouldClose
| E_glfwSetWindowShouldClose (value : bool)
| E_glfwGetKey (key : Key)
| E_glfwSwapBuffers
| E_glfwPollEvents
| E_deliver (ev : WindowEvent).   (* an event handed over inside glfwPollEvents *)

(** ** The world *)

(** The OpenGL state holds what the program has asked for.  Object names are
    handed out from 1 by per-kind counters (shaders and programs share one);
    of the checks a driver makes on its arguments the model has the one this
    program can run into, the refusal of [glUseProgram] to install a program
    that is not linked; every other call takes effect as requested. *)
Record GlState := mkGl {
  gl_shaders : gmap N ShaderObj;
  gl_programs : gmap N ProgramObj;
  gl_buffers : gmap N BufferObj;
  gl_vertex_arrays : gmap N (gmap N AttribConfig);
  gl_next_object : N;          (* shader and program names share one name space *)
  gl_next_buffer : N;
  gl_next_vertex_array : N;
  gl_array_buffer_binding : N;
  gl_vertex_array_binding : N;
  gl_current_program : N;
  gl_viewport : option Viewport;   (* the rectangle last asked for with glViewport *)
  gl_clear_color : Color
}.

Record World := mkWorld {
  calls : list Event;                 (* every library call so far, oldest first *)
  should_close : bool;                (* the window's close flag *)
  size_callback : bool;               (* framebuffer_size_callback registered *)
  clock : nat;                        (* glfwPollEvents calls made so far *)
  back_buffer : list RenderOp;
  presented : list (list RenderOp);   (* one entry per glfwSwapBuffers *)
  gl : GlState
}.

(** Before the first call: no objects, nothing bound, no viewport asked for. *)
Definition gl0 : GlState :=
  mkGl ∅ ∅ ∅ ∅ 1%N 1%N 1%N 0%N 0%N 0%N None (mkColor 0 0 0 0).

Definition world0 : World := mkWorld [] false false 0%nat [] [] gl0.

(** ** What the libraries decide *)

Record Env := mkEnv {
  env_create_window : bool;                        (* glfwCreateWindow gives a window *)
  env_load_gl : bool;                              (* gladLoadGLLoader result *)
  env_compile : ShaderType -> string -> bool * string;   (* status and info log *)
  env_link : list (option ShaderObj) -> bool * string;   (* status and info log *)
  env_key : nat -> Key -> KeyState;                (* key state in frame [i] *)
  env_events : nat -> list WindowEvent             (* events polled at the end of frame [i] *)
}.

(** ** The state monad *)

Definition M (A : Type) : Type := World -> A * World.

Definition ret {A} (a : A) : M A := fun w => (a, w).

Definition bind {A B} (m : M A) (k : A -> M B) : M B :=
  fun w => k (fst (m w)) (snd (m w)).

Notation "'let*' x ':=' m 'in' k" := (bind m (fun x => k))
  (at level 10, x name, m at level 100, k at level 200).
Notation "m ';;' k" := (bind m (fun _ => k))
  (at level 100, k at level 200, right associativity).

(** The world a computation leaves behind. *)
Definition exec {A} (m : M A) (w : World) : World := snd (m w).

Definition log (e : Event) : M unit :=
  fun w => (tt, mkWorld (calls w ++ [e]) (should_close w) (size_callback w) (clock w)
                        (back_buffer w) (presented w) (gl w)).

Definition get_gl : M GlState := fun w => (gl w, w).

Definition put_gl (g : GlState) : M unit :=
  fun w => (tt, mkWorld (calls w) (should_close w) (size_callback w) (clock w)
                        (back_buffer w) (presented w) g).

Definition render (op : RenderOp) : M unit :=
  fun w => (tt, mkWorld (calls w) (should_close w) (size_callback w) (clock w)
                        (back_buffer w ++ [op]) (presented w) (gl w)).

Definition set_should_close (b : bool) : M unit :=
  fun w => (tt, mkWorld (calls w) b (size_callback w) (clock w)
                        (back_buffer w) (presented w) (gl w)).

(** The link-success flag of [program]; [false] when there is no such program. *)
Definition lookup_linked (g : GlState) (program : N) : bool :=
  match gl_programs g !! program with
  | Some p => pr_link_status p
  | None => false
  end.

(** ** The libraries, as far as [main] uses them *)

Section Program.

Variable env : Env.

(** *** GLFW, glad and the standard output *)

Definition glfwInit : M unit := log E_glfwInit.

Definition glfwWindowHint (hint : WindowHint) (value : Z) : M unit :=
  log (E_glfwWindowHint hint value).

Definition glfwCreateWindow (width height : Z) (title : string) : M (option GLFWwindow) :=
  log (E_glfwCreateWindow width height title) ;;
  ret (if env_create_window env then Some the_window else None).

Definition glfwTerminate : M unit := log E_glfwTerminate.

Definition glfwMakeContextCurrent (window : GLFWwindow) : M unit :=
  log E_glfwMakeContextCurrent.

(** The only callback the source ever registers is [framebuffer_size_callback],
    so the registration is a flag and [glfwPollEvents] below calls it. *)
Definition glfwSetFramebufferSizeCallback (window : GLFWwindow) : M unit :=
  log E_glfwSetFramebufferSizeCallback ;;
  fun w => (tt, mkWorld (calls w) (should_close w) true (clock w)
                        (back_buffer w) (presented w) (gl w)).

Definition gladLoadGLLoader : M bool :=
  log E_gladLoadGLLoader ;; ret (env_load_gl env).

Definition cout (text : string) : M unit := log (E_cout text).

Definition glfwWindowShouldClose (window : GLFWwindow) : M bool :=
  log E_glfwWindowShouldClose ;; fun w => (should_close w, w).

Definition glfwSetWindowShouldClose (window : GLFWwindow) (value : bool) : M unit :=
  log (E_glfwSetWindowShouldClose value) ;; set_should_close value.

Definition glfwGetKey (window : GLFWwindow) (key : Key) : M KeyState :=
  log (E_glfwGetKey key) ;; fun w => (env_key env (clock w) key, w).

Definition glfwSwapBuffers (window : GLFWwindow) : M unit :=
  log E_glfwSwapBuffers ;;
  fun w => (tt, mkWorld (calls w) (should_close w) (size_callback w) (clock w)
                        [] (presented w ++ [back_buffer w]) (gl w)).

(** *** OpenGL *)

Definition glViewport (x y width height : Z) : M unit :=
  log (E_glViewport x y width height) ;;
  let* g := get_gl in
  put_gl (mkGl (gl_shaders g) (gl_programs g) (gl_buffers g) (gl_vertex_arrays g)
               (gl_next_object g) (gl_next_buffer g) (gl_next_vertex_array g)
               (gl_array_buffer_binding g) (gl_vertex_array_binding g)
               (gl_current_program g) (Some (mkViewport x y width height))
               (gl_clear_color g)).

Definition set_shaders (m : gmap N ShaderObj) (next : N) (g : GlState) : GlState :=
  mkGl m (gl_programs g) (gl_buffers g) (gl_vertex_arrays g)
       next (gl_next_buffer g) (gl_next_vertex_array g)
       (gl_array_buffer_binding g) (gl_vertex_array_binding g)
       (gl_current_program g) (gl_viewport g) (gl_clear_color g).

Definition set_programs (m : gmap N ProgramObj) (next current : N) (g : GlState) : GlState :=
  mkGl (gl_shaders g) m (gl_buffers g) (gl_vertex_arrays g)
       next (gl_next_buffer g) (gl_next_vertex_array g)
       (gl_array_buffer_binding g) (gl_vertex_array_binding g)
       current (gl_viewport g) (gl_clear_color g).

Definition set_buffers (m : gmap N BufferObj) (next binding : N) (g : GlState) : GlState :=
  mkGl (gl_shaders g) (gl_programs g) m (gl_vertex_arrays g)
       (gl_next_object g) next (gl_next_vertex_array g)
       binding (gl_vertex_array_binding g)
       (gl_current_program g) (gl_viewport g) (gl_clear_color g).

Definition set_vertex_arrays (m : gmap N (gmap N AttribConfig)) (next binding : N)
    (g : GlState) : GlState :=
  mkGl (gl_shaders g) (gl_programs g) (gl_buffers g) m
       (gl_next_object g) (gl_next_buffer g) next
       (gl_array_buffer_binding g) binding
       (gl_current_program g) (gl_viewport g) (gl_clear_color g).

Definition glCreateShader (type : ShaderType) : M N :=
  log (E_glCreateShader type) ;;
  let* g := get_gl in
  let name := gl_next_object g in
  put_gl (set_shaders (<[name := mkShader type "" false "" false]> (gl_shaders g))
                      (N.succ name) g) ;;
  ret name.

(** [glShaderSource(shader, 1, &source, NULL)]: one NUL-terminated string. *)
Definition glShaderSource (shader : N) (source : string) : M unit :=
  log (E_glShaderSource shader source) ;;
  let* g := get_gl in
  put_gl (set_shaders
            (alter (fun s => mkShader (sh_type s) (c_str source) (sh_compile_status s)
                                      (sh_info_log s) (sh_delete_status s))
                   shader (gl_shaders g))
            (gl_next_object g) g).

Definition glCompileShader (shader : N) : M unit :=
  log (E_glCompileShader shader) ;;
  let* g := get_gl in
  put_gl (set_shaders
            (alter (fun s => let r := env_compile env (sh_type s) (sh_source s) in
                             mkShader (sh_type s) (sh_source s) (fst r) (snd r)
                                      (sh_delete_status s))
                   shader (gl_shaders g))
            (gl_next_object g) g).

Definition glGetShaderiv (shader : N) (pname : ShaderParam) : M Z :=
  log (E_glGetShaderiv shader pname) ;;
  let* g := get_gl in
  ret (match gl_shaders g !! shader with
       | Some s => if sh_compile_status s then GL_TRUE else GL_FALSE
       | None => GL_FALSE
       end).

Definition glGetShaderInfoLog (shader : N) (bufSize : Z) : M string :=
  log (E_glGetShaderInfoLog shader bufSize) ;;
  let* g := get_gl in
  ret (match gl_shaders g !! shader with
       | Some s => copy_log bufSize (sh_info_log s)
       | None => ""
       end).

Definition glCreateProgram : M N :=
  log E_glCreateProgram ;;
  let* g := get_gl in
  let name := gl_next_object g in
  put_gl (set_programs (<[name := mkProgram [] false ""]> (gl_programs g))
                       (N.succ name) (gl_current_program g) g) ;;
  ret name.

Definition glAttachShader (program shader : N) : M unit :=
  log (E_glAttachShader program shader) ;;
  let* g := get_gl in
  put_gl (set_programs
            (alter (fun p => mkProgram (pr_attached p ++ [shader]) (pr_link_status p)
                                       (pr_info_log p))
                   program (gl_programs g))
            (gl_next_object g) (gl_current_program g) g).

(** The linker sees the shader objects attached to the program. *)
Definition glLinkProgram (program : N) : M unit :=
  log (E_glLinkProgram program) ;;
  let* g := get_gl in
  put_gl (set_programs
            (alter (fun p => let r := env_link env (map (fun s => gl_shaders g !! s)
                                                        (pr_attached p)) in
                             mkProgram (pr_attached p) (fst r) (snd r))
                   program (gl_programs g))
            (gl_next_object g) (gl_current_program g) g).

(** Installs [program] as the current program when it is 0 (no program) or a
    successfully linked program; any other name is refused (an OpenGL error)
    and the current program stays what it was. *)
Definition glUseProgram (program : N) : M unit :=
  log (E_glUseProgram program) ;;
  let* g := get_gl in
  if (program =? 0)%N || lookup_linked g program
  then put_gl (set_programs (gl_programs g) (gl_next_object g) program g)
  else ret tt.

Definition glDeleteShader (shader : N) : M unit :=
  log (E_glDeleteShader shader) ;;
  let* g := get_gl in
  put_gl (set_shaders
            (alter (fun s => mkShader (sh_type s) (sh_source s) (sh_compile_status s)
                                      (sh_info_log s) true)
                   shader (gl_shaders g))
            (gl_next_object g) g).

Definition glGetProgramiv (program : N) (pname : ProgramParam) : M Z :=
  log (E_glGetProgramiv program pname) ;;
  let* g := get_gl in
  ret (if lookup_linked g program then GL_TRUE else GL_FALSE).

Definition glGetProgramInfoLog (program : N) (bufSize : Z) : M string :=
  log (E_glGetProgramInfoLog program bufSize) ;;
  let* g := get_gl in
  ret (match gl_programs g !! program with
       | Some p => copy_log bufSize (pr_info_log p)
       | None => ""
       end).

Definition glGenBuffers (n : Z) : M N :=
  log (E_glGenBuffers n) ;;
  let* g := get_gl in
  let name := gl_next_buffer g in
  put_gl (set_buffers (gl_buffers g) (N.succ name) (gl_array_buffer_binding g) g) ;;
  ret name.

(** Binding a fresh non-zero name creates the (empty) object. *)
Definition glBindBuffer (target : BufferTarget) (buffer : N) : M unit :=
  log (E_glBindBuffer target buffer) ;;
  let* g := get_gl in
  let m := gl_buffers g in
  let m' := if (buffer =? 0)%N then m
            else match m !! buffer with
                 | Some _ => m
                 | None => <[buffer := mkBuffer 0 [] GL_STATIC_DRAW]> m
                 end in
  put_gl (set_buffers m' (gl_next_buffer g) buffer g).

(** Fills the buffer bound to [target]; with nothing bound there is no store. *)
Definition glBufferData (target : BufferTarget) (size : Z) (data : list Q)
    (usage : BufferUsage) : M unit :=
  log (E_glBufferData target size data usage) ;;
  let* g := get_gl in
  let b := gl_array_buffer_binding g in
  let m' := if (b =? 0)%N then gl_buffers g
            else <[b := mkBuffer size data usage]> (gl_buffers g) in
  put_gl (set_buffers m' (gl_next_buffer g) b g).

Definition glGenVertexArrays (n : Z) : M N :=
  log (E_glGenVertexArrays n) ;;
  let* g := get_gl in
  let name := gl_next_vertex_array g in
  put_gl (set_vertex_arrays (gl_vertex_arrays g) (N.succ name)
                            (gl_vertex_array_binding g) g) ;;
  ret name.

Definition glBindVertexArray (array : N) : M unit :=
  log (E_glBindVertexArray array) ;;
  let* g := get_gl in
  let m := gl_vertex_arrays g in
  let m' := if (array =? 0)%N then m
            else match m !! array with
                 | Some _ => m
                 | None => <[array := ∅]> m
                 end in
  put_gl (set_vertex_arrays m' (gl_next_vertex_array g) array g).

Definition attrib_of (attribs : gmap N AttribConfig) (index : N) : AttribConfig :=
  match attribs !! index with
  | Some a => a
  | None => default_attrib
  end.

(** Stores the layout in the bound vertex array, together with the buffer that
    is bound to GL_ARRAY_BUFFER at the time of the call. *)
Definition glVertexAttribPointer (index : N) (size : Z) (type : DataType)
    (normalized : bool) (stride : Z) (pointer : Z) : M unit :=
  log (E_glVertexAttribPointer index size type normalized stride pointer) ;;
  let* g := get_gl in
  put_gl (set_vertex_arrays
            (alter (fun attribs =>
                      <[index := mkAttrib (at_enabled (attrib_of attribs index))
                                          size type normalized stride pointer
                                          (gl_array_buffer_binding g)]> attribs)
                   (gl_vertex_array_binding g) (gl_vertex_arrays g))
            (gl_next_vertex_array g) (gl_vertex_array_binding g) g).

Definition glEnableVertexAttribArray (index : N) : M unit :=
  log (E_glEnableVertexAttribArray index) ;;
  let* g := get_gl in
  put_gl (set_vertex_arrays
            (alter (fun attribs =>
                      let a := attrib_of attribs index in
                      <[index := mkAttrib true (at_size a) (at_type a) (at_normalized a)
                                          (at_stride a) (at_offset a) (at_buffer a)]>
                      attribs)
                   (gl_vertex_array_binding g) (gl_vertex_arrays g))
            (gl_next_vertex_array g) (gl_vertex_array_binding g) g).

Definition glClearColor (r g b a : Q) : M unit :=
  log (E_glClearColor r g b a) ;;
  let* s := get_gl in
  put_gl (mkGl (gl_shaders s) (gl_programs s) (gl_buffers s) (gl_vertex_arrays s)
               (gl_next_object s) (gl_next_buffer s) (gl_next_vertex_array s)
               (gl_array_buffer_binding s) (gl_vertex_array_binding s)
               (gl_current_program s) (gl_viewport s) (mkColor r g b a)).

Definition glClear (mask : ClearMask) : M unit :=
  log (E_glClear mask) ;;
  let* g := get_gl in
  match mask with
  | GL_COLOR_BUFFER_BIT => render (Cleared (gl_clear_color g))
  | _ => ret tt
  end.

Definition glDrawArrays (mode : DrawMode) (first count : Z) : M unit :=
  log (E_glDrawArrays mode first count) ;;
  let* g := get_gl in
  render (Drew (mkDraw (gl_current_program g) (lookup_linked g (gl_current_program g))
                       (gl_vertex_array_binding g) mode first count)).

(** ** The program *)

(* callback function used to resize viewport when window is resized *)
Definition framebuffer_size_callback (window : GLFWwindow) (width height : Z) : M unit :=
  glViewport 0 0 width height.

(** One event taken off the queue by [glfwPollEvents]. *)
Definition dispatch (ev : WindowEvent) : M unit :=
  log (E_deliver ev) ;;
  match ev with
  | CloseRequest => set_should_close true
  | FramebufferSize width height =>
      let* registered := (fun w => (size_callback w, w)) in
      if registered then framebuffer_size_callback the_window width height else ret tt
  end.

Fixpoint dispatch_all (evs : list WindowEvent) : M unit :=
  match evs with
  | [] => ret tt
  | ev :: rest => dispatch ev ;; dispatch_all rest
  end.

Definition glfwPollEvents : M unit :=
  log E_glfwPollEvents ;;
  let* evs := (fun w => (env_events env (clock w), w)) in
  dispatch_all evs ;;
  fun w => (tt, mkWorld (calls w) (should_close w) (size_callback w) (S (clock w))
                        (back_buffer w) (presented w) (gl w)).

(* process all input *)
Definition processInput (window : GLFWwindow) : M unit :=
  let* state := glfwGetKey window GLFW_KEY_ESCAPE in
  match state with
  | GLFW_PRESS => glfwSetWindowShouldClose window true
  | GLFW_RELEASE => ret tt
  end.

Definition vertices : list Q :=
  [ -0.5; -0.5; 0.0;
     0.5; -0.5; 0.0;
     0.0;  0.5; 0.0 ]%Q.

Definition sizeof_vertices : Z := sizeof_float * Z.of_nat (length vertices).

(** [main], lines 118-167: the two shaders and the shader program. *)
Definition main_shaders : M N :=
  let* vertexShader := glCreateShader GL_VERTEX_SHADER in
  glShaderSource vertexShader vertexShaderSource ;;
  glCompileShader vertexShader ;;
  let* success := glGetShaderiv vertexShader GL_COMPILE_STATUS in
  (if success =? 0 then
     let* infoLog := glGetShaderInfoLog vertexShader 512 in
     cout ("ERROR::SHADER::VERTEX::COMPILATION_FAILED" +:+ nl +:+ infoLog +:+ endl)
   else ret tt) ;;
  let* fragmentShader := glCreateShader GL_FRAGMENT_SHADER in
  glShaderSource fragmentShader fragmentShaderSource ;;
  glCompileShader fragmentShader ;;
  let* success := glGetShaderiv fragmentShader GL_COMPILE_STATUS in
  (if success =? 0 then
     let* infoLog := glGetShaderInfoLog vertexShader 512 in
     cout ("ERROR::SHADER::FRAGMENT::COMPILATION_FAILED" +:+ nl +:+ infoLog +:+ endl)
   else ret tt) ;;
  let* shaderProgram := glCreateProgram in
  glAttachShader shaderProgram vertexShader ;;
  glAttachShader shaderProgram fragmentShader ;;
  glLinkProgram shaderProgram ;;
  glUseProgram shaderProgram ;;
  glDeleteShader vertexShader ;;
  glDeleteShader fragmentShader ;;
  let* success := glGetProgramiv shaderProgram GL_LINK_STATUS in
  (if success =? 0 then
     let* infoLog := glGetProgramInfoLog shaderProgram 512 in
     cout ("ERROR::SHADER::PROGRAM:: Linking failed" +:+ nl +:+ infoLog +:+ endl)
   else ret tt) ;;
  ret shaderProgram.

(** [main], lines 172-238: the triangle's buffer and vertex array. *)
Definition main_geometry : M N :=
  let* VBO := glGenBuffers 1 in
  let* VAO := glGenVertexArrays 1 in
  glBindVertexArray VAO ;;
  glBindBuffer GL_ARRAY_BUFFER VBO ;;
  glBufferData GL_ARRAY_BUFFER sizeof_vertices vertices GL_STATIC_DRAW ;;
  glVertexAttribPointer 0 3 GL_FLOAT false (3 * sizeof_float) 0 ;;
  glEnableVertexAttribArray 0 ;;
  glBindBuffer GL_ARRAY_BUFFER 0 ;;
  glBindVertexArray 0 ;;
  ret VAO.

(** [main], lines 247-270: the body of the render loop. *)
Definition main_frame (window : GLFWwindow) (shaderProgram VAO : N) : M unit :=
  processInput window ;;
  glClearColor 0.2 0.3 0.3 1.0 ;;
  glClear GL_COLOR_BUFFER_BIT ;;
  glUseProgram shaderProgram ;;
  glBindVertexArray VAO ;;
  glDrawArrays GL_TRIANGLES 0 3 ;;
  glfwSwapBuffers window ;;
  glfwPollEvents.

(** [main], lines 245-271: [while (!glfwWindowShouldClose(window))].  [fuel]
    bounds the number of times the condition is evaluated; the result says
    whether the loop was left through its condition. *)
Fixpoint main_loop (fuel : nat) (window : GLFWwindow) (shaderProgram VAO : N) : M bool :=
  match fuel with
  | O => ret false
  | S fuel' =>
      let* close := glfwWindowShouldClose window in
      if close then ret true
      else main_frame window shaderProgram VAO ;;
           main_loop fuel' window shaderProgram VAO
  end.

(** The exit status, or [None] when [fuel] ran out inside the render loop. *)
Definition main (fuel : nat) : M (option Z) :=
  glfwInit ;;
  glfwWindowHint GLFW_CONTEXT_VERSION_MAJOR 3 ;;
  glfwWindowHint GLFW_CONTEXT_VERSION_MINOR 3 ;;
  glfwWindowHint GLFW_OPENGL_PROFILE GLFW_OPENGL_CORE_PROFILE ;;
  let* window := glfwCreateWindow 800 600 "LearnOpenGL" in
  match window with
  | None =>
      cout ("Failed to create GLFW window" +:+ endl) ;;
      glfwTerminate ;;
      ret (Some (-1))
  | Some window =>
      glfwMakeContextCurrent window ;;
      glfwSetFramebufferSizeCallback window ;;
      let* loaded := gladLoadGLLoader in
      if negb loaded then
        cout ("Failed to initialize GLAD" +:+ endl) ;;
        ret (Some (-1))
      else
        let* shaderProgram := main_shaders in
        let* VAO := main_geometry in
        let* closed := main_loop fuel window shaderProgram VAO in
        if closed then glfwTerminate ;; ret (Some 0)
        else ret None
  end.

End Program.

Arguments main_loop env fuel window shaderProgram VAO : simpl nomatch.

(** ** Vocabulary for the statements *)

(** *** What the environment decides *)

Definition vertex_compile (env : Env) : bool * string :=
  env_compile env GL_VERTEX_SHADER (c_str vertexShaderSource).

Definition fragment_compile (env : Env) : bool * string :=
  env_compile env GL_FRAGMENT_SHADER (c_str fragmentShaderSource).

(** The linker is handed the two shader objects as compilation left them. *)
Definition link_result (env : Env) : bool * string :=
  env_link env
    [ Some (mkShader GL_VERTEX_SHADER (c_str vertexShaderSource)
                     (fst (vertex_compile env)) (snd (vertex_compile env)) false);
      Some (mkShader GL_FRAGMENT_SHADER (c_str fragmentShaderSource)
                     (fst (fragment_compile env)) (snd (fragment_compile env)) false) ].

Definition escape_pressed (env : Env) (i : nat) : bool :=
  match env_key env i GLFW_KEY_ESCAPE with
  | GLFW_PRESS => true
  | GLFW_RELEASE => false
  end.

Definition is_close_request (ev : WindowEvent) : bool :=
  match ev with
  | CloseRequest => true
  | FramebufferSize _ _ => false
  end.

Definition close_requested (env : Env) (i : nat) : bool :=
  existsb is_close_request (env_events env i).

(** The close condition becomes true during frame [i]. *)
Definition close_condition (env : Env) (i : nat) : bool :=
  escape_pressed env i || close_requested env i.

(** *** Calls before the loop *)

Definition boot_calls : list Event :=
  [ E_glfwInit;
    E_glfwWindowHint GLFW_CONTEXT_VERSION_MAJOR 3;
    E_glfwWindowHint GLFW_CONTEXT_VERSION_MINOR 3;
    E_glfwWindowHint GLFW_OPENGL_PROFILE GLFW_OPENGL_CORE_PROFILE;
    E_glfwCreateWindow 800 600 "LearnOpenGL";
    E_glfwMakeContextCurrent;
    E_glfwSetFramebufferSizeCallback;
    E_gladLoadGLLoader ].

(** The world once the window exists and the function table is loaded. *)
Definition boot_world : World := mkWorld boot_calls false true 0 [] [] gl0.

Definition compile_calls (shader : N) (type : ShaderType) (source : string) : list Event :=
  [ E_glCreateShader type;
    E_glShaderSource shader source;
    E_glCompileShader shader;
    E_glGetShaderiv shader GL_COMPILE_STATUS ].

(** The diagnostic of a failed compilation: the info log of shader [queried]
    is fetched and printed under [headline]. *)
Definition report_calls (ok : bool) (queried : N) (headline log : string) : list Event :=
  if ok then []
  else [ E_glGetShaderInfoLog queried 512; E_cout (headline +:+ nl +:+ log +:+ endl) ].

Definition link_calls : list Event :=
  [ E_glCreateProgram;
    E_glAttachShader 3 1;
    E_glAttachShader 3 2;
    E_glLinkProgram 3;
    E_glUseProgram 3;
    E_glDeleteShader 1;
    E_glDeleteShader 2;
    E_glGetProgramiv 3 GL_LINK_STATUS ].

Definition link_report_calls (env : Env) : list Event :=
  if fst (link_result env) then []
  else [ E_glGetProgramInfoLog 3 512;
         E_cout ("ERROR::SHADER::PROGRAM:: Linking failed" +:+ nl +:+
                 copy_log 512 (snd (link_result env)) +:+ endl) ].

Definition shader_calls (env : Env) : list Event :=
  compile_calls 1 GL_VERTEX_SHADER vertexShaderSource ++
  report_calls (fst (vertex_compile env)) 1 "ERROR::SHADER::VERTEX::COMPILATION_FAILED"
               (copy_log 512 (snd (vertex_compile env))) ++
  compile_calls 2 GL_FRAGMENT_SHADER fragmentShaderSource ++
  report_calls (fst (fragment_compile env)) 1 "ERROR::SHADER::FRAGMENT::COMPILATION_FAILED"
               (copy_log 512 (snd (vertex_compile env))) ++
  link_calls ++
  link_report_calls env.

Definition geometry_calls : list Event :=
  [ E_glGenBuffers 1;
    E_glGenVertexArrays 1;
    E_glBindVertexArray 1;
    E_glBindBuffer GL_ARRAY_BUFFER 1;
    E_glBufferData GL_ARRAY_BUFFER 36 vertices GL_STATIC_DRAW;
    E_glVertexAttribPointer 0 3 GL_FLOAT false 12 0;
    E_glEnableVertexAttribArray 0;
    E_glBindBuffer GL_ARRAY_BUFFER 0;
    E_glBindVertexArray 0 ].

(** The world once the shader program is built: shaders 1 and 2 flagged for
    deletion, program 3 current when it linked and no program current when it
    did not. *)
Definition shaders_world (env : Env) : World :=
  mkWorld (boot_calls ++ shader_calls env) false true 0 [] []
    (mkGl (<[2%N := mkShader GL_FRAGMENT_SHADER (c_str fragmentShaderSource)
                            (fst (fragment_compile env)) (snd (fragment_compile env)) true]>
           (<[1%N := mkShader GL_VERTEX_SHADER (c_str vertexShaderSource)
                             (fst (vertex_compile env)) (snd (vertex_compile env)) true]>
            ∅))
          (<[3%N := mkProgram [1%N; 2%N] (fst (link_result env)) (snd (link_result env))]> ∅)
          ∅ ∅ 4%N 1%N 1%N 0%N 0%N (if fst (link_result env) then 3%N else 0%N)
          None (mkColor 0 0 0 0)).

(** The world in which the render loop is entered. *)
Definition setup_world (env : Env) : World := exec main_geometry (shaders_world env).

(** How [main] ends once the loop has returned (or [fuel] ran out). *)
Definition finish (r : bool * World) : option Z * World :=
  if fst r then (Some 0, exec glfwTerminate (snd r)) else (None, snd r).

(** *** Calls of one loop iteration *)

Definition input_calls (env : Env) (i : nat) : list Event :=
  E_glfwGetKey GLFW_KEY_ESCAPE ::
  (if escape_pressed env i then [E_glfwSetWindowShouldClose true] else []).

Definition delivered_calls (registered : bool) (evs : list WindowEvent) : list Event :=
  flat_map (fun ev =>
              E_deliver ev ::
              match ev with
              | FramebufferSize width height =>
                  if registered then [E_glViewport 0 0 width height] else []
              | CloseRequest => []
              end) evs.

Definition render_calls (shaderProgram VAO : N) : list Event :=
  [ E_glClearColor 0.2 0.3 0.3 1.0;
    E_glClear GL_COLOR_BUFFER_BIT;
    E_glUseProgram shaderProgram;
    E_glBindVertexArray VAO;
    E_glDrawArrays GL_TRIANGLES 0 3 ].

Definition present_calls (env : Env) (registered : bool) (i : nat) : list Event :=
  [ E_glfwSwapBuffers; E_glfwPollEvents ] ++ delivered_calls registered (env_events env i).

Definition frame_calls (env : Env) (registered : bool) (shaderProgram VAO : N) (i : nat)
    : list Event :=
  input_calls env i ++ render_calls shaderProgram VAO ++ present_calls env registered i.

(** The current program once [glUseProgram program] has returned. *)
Definition program_after (g : GlState) (program : N) : N :=
  if (program =? 0)%N || lookup_linked g program then program
  else gl_current_program g.

(** What one iteration leaves in the back buffer. *)
Definition frame_image (linked : bool) (shaderProgram VAO : N) : list RenderOp :=
  [ Cleared (mkColor 0.2 0.3 0.3 1.0);
    Drew (mkDraw shaderProgram linked VAO GL_TRIANGLES 0 3) ].

(** *** Counting in a list of calls *)

Definition count (p : Event -> bool) (l : list Event) : nat :=
  length (List.filter p l).

Definition is_draw (e : Event) : bool :=
  match e with E_glDrawArrays _ _ _ => true | _ => false end.

Definition is_link (e : Event) : bool :=
  match e with E_glLinkProgram _ => true | _ => false end.

Definition is_terminate (e : Event) : bool :=
  match e with E_glfwTerminate => true | _ => false end.

(** Calls that only occur inside the render loop. *)
Definition is_loop_call (e : Event) : bool :=
  match e with
  | E_glfwWindowShouldClose | E_glfwGetKey _ | E_glfwSetWindowShouldClose _
  | E_glClearColor _ _ _ _ | E_glClear _ | E_glDrawArrays _ _ _
  | E_glfwSwapBuffers | E_glfwPollEvents | E_deliver _ | E_glViewport _ _ _ _ => true
  | _ => false
  end.

(** The events that make the window's close flag true. *)
Definition closing (e : Event) : bool :=
  match e with
  | E_glfwSetWindowShouldClose true => true
  | E_deliver CloseRequest => true
  | _ => false
  end.



(** Number of draw calls issued after the first closing event. *)
Fixpoint draws_after_closing (l : list Event) : nat :=
  match l with
  | [] => 0
  | e :: rest => if closing e then count is_draw rest else draws_after_closing rest
  end.

(** Iterations [main_loop] runs from frame [i] on, entered with the flag down. *)
Fixpoint frames_run (env : Env) (fuel i : nat) : nat :=
  match fuel with
  | O => O
  | S fuel' => S (if close_condition env i then O else frames_run env fuel' (S i))
  end.

(** Whether [main_loop] is left through its condition within [fuel] tests: some
    frame raises the close condition and one more test fits. *)
Definition loop_exits (env : Env) (fuel : nat) : bool :=
  existsb (close_condition env) (seq 0 (pred fuel)).

(** Calls of a run after the link attempt and the release of the stages. *)
Definition after_release (env : Env) (fuel : nat) : list Event :=
  [E_glGetProgramiv 3 GL_LINK_STATUS] ++ link_report_calls env ++ geometry_calls ++
  flat_map (fun i => E_glfwWindowShouldClose :: frame_calls env true 3 1 i)
           (seq 0 (frames_run env fuel 0)) ++
  (if loop_exits env fuel then [E_glfwWindowShouldClose; E_glfwTerminate] else []).

(** Calls that take a compiled-stage (shader) handle. *)
Definition uses_stage (e : Event) : bool :=
  match e with
  | E_glShaderSource _ _ | E_glCompileShader _ | E_glGetShaderiv _ _
  | E_glGetShaderInfoLog _ _ | E_glAttachShader _ _ | E_glDeleteShader _ => true
  | _ => false
  end.


(** Fetches of the info log of shader [shader]. *)
Definition reads_log_of (shader : N) (e : Event) : bool :=
  match e with E_glGetShaderInfoLog s _ => (s =? shader)%N | _ => false end.

(** The viewport transformation OpenGL applies for the rectangle [vp]: from a
    normalized device coordinate (-1 .. 1) to a window coordinate in pixels. *)
Definition window_x (vp : Viewport) (x : Q) : Q :=
  (inject_Z (vp_width vp) / 2) * x + (inject_Z (vp_x vp) + inject_Z (vp_width vp) / 2).

Definition window_y (vp : Viewport) (y : Q) : Q :=
  (inject_Z (vp_height vp) / 2) * y + (inject_Z (vp_y vp) + inject_Z (vp_height vp) / 2).

(** ** Environments used as witnesses and counterexamples *)

Definition compiled (o : option ShaderObj) : bool :=
  match o with
  | Some s => sh_compile_status s
  | None => false
  end.

(** A linker that refuses a program with a stage that did not compile. *)
Definition strict_link (stages : list (option ShaderObj)) : bool * string :=
  if forallb compiled stages then (true, "")
  else (false, "error: linking with uncompiled shader").

(** Everything works; a resize arrives in frame 0, escape is down in frame 1. *)
Definition env_demo : Env :=
  mkEnv true true (fun _ _ => (true, "")) strict_link
        (fun i _ => if Nat.eqb i 1 then GLFW_PRESS else GLFW_RELEASE)
        (fun i => if Nat.eqb i 0 then [FramebufferSize 640 480] else []).

(** The window cannot be created. *)
Definition env_no_window : Env :=
  mkEnv false true (fun _ _ => (true, "")) strict_link
        (fun _ _ => GLFW_RELEASE) (fun _ => []).

(** The window opens but the function table cannot be loaded. *)
Definition env_no_gl : Env :=
  mkEnv true false (fun _ _ => (true, "")) strict_link
        (fun _ _ => GLFW_RELEASE) (fun _ => []).

(** The vertex shader does not compile; the window is closed in frame 0. *)
Definition env_vertex_broken : Env :=
  mkEnv true true
        (fun type _ => match type with
                       | GL_VERTEX_SHADER => (false, "0:5(1): error: syntax error")
                       | GL_FRAGMENT_SHADER => (true, "")
                       end)
        strict_link (fun _ _ => GLFW_RELEASE) (fun _ => [CloseRequest]).

(** The fragment shader does not compile; the window is closed in frame 0. *)
Definition env_fragment_broken : Env :=
  mkEnv true true
        (fun type _ => match type with
                       | GL_VERTEX_SHADER => (true, "")
                       | GL_FRAGMENT_SHADER => (false, "0:6(1): error: syntax error")
                       end)
        strict_link (fun _ _ => GLFW_RELEASE) (fun _ => [CloseRequest]).

(** Both shaders compile, the program does not link; closed in frame 0. *)
Definition env_link_broken : Env :=
  mkEnv true true (fun _ _ => (true, ""))
        (fun _ => (false, "error: no main in vertex shader"))
        (fun _ _ => GLFW_RELEASE) (fun _ => [CloseRequest]).

(** *** Vocabulary for the further properties *)

Definition is_cout (e : Event) : bool :=
  match e with E_cout _ => true | _ => false end.

(** Calls that create or fill the geometry objects or declare their layout. *)
Definition is_upload (e : Event) : bool :=
  match e with
  | E_glGenBuffers _ | E_glGenVertexArrays _ | E_glBufferData _ _ _ _
  | E_glVertexAttribPointer _ _ _ _ _ _ | E_glEnableVertexAttribArray _ => true
  | _ => false
  end.

(** Size carried by the last resize event of a batch, if there is one. *)
Fixpoint last_resize (evs : list WindowEvent) : option (Z * Z) :=
  match evs with
  | [] => None
  | ev :: rest =>
      match last_resize rest with
      | Some size => Some size
      | None =>
          match ev with
          | FramebufferSize width height => Some (width, height)
          | CloseRequest => None
          end
      end
  end.

(** The viewport after resize callbacks for a batch whose last size is [size]. *)
Definition viewport_of (size : option (Z * Z)) (old : option Viewport) : option Viewport :=
  match size with
  | Some (width, height) => Some (mkViewport 0 0 width height)
  | None => old
  end.

(** Events polled during the first [n] frames, in order. *)
Definition polled (env : Env) (start n : nat) : list WindowEvent :=
  flat_map (env_events env) (seq start n).

(** Nothing is pressed, nobody closes the window; two resizes arrive in frame 1. *)
Definition env_idle : Env :=
  mkEnv true true (fun _ _ => (true, "")) strict_link
        (fun _ _ => GLFW_RELEASE)
        (fun i => if Nat.eqb i 1 then [FramebufferSize 1024 768; FramebufferSize 640 480]
                  else []).

(** Nothing compiles or links; the log of the vertex shader is longer than the
    511 characters the diagnostic buffer takes.  Closed in frame 0. *)
Definition env_all_broken : Env :=
  mkEnv true true
        (fun type _ => match type with
                       | GL_VERTEX_SHADER => (false,
                            String.concat ""
                              (repeat "0:1(1): error: syntax error, unexpected end of file; "
                                      12))
                       | GL_FRAGMENT_SHADER => (false, "0:6(1): error: syntax error")
                       end)
        strict_link (fun _ _ => GLFW_RELEASE) (fun _ => [CloseRequest]).

(** ** Basic facts *)

Section Facts.

Variable env : Env.

Lemma dispatch_all_spec (evs : list WindowEvent) : forall w : World,
  let w' := exec (dispatch_all evs) w in
  calls w' = calls w ++ delivered_calls (size_callback w) evs /\
  should_close w' = should_close w || existsb is_close_request evs /\
  size_callback w' = size_callback w /\
  clock w' = clock w /\
  back_buffer w' = back_buffer w /\
  presented w' = presented w /\
  gl_programs (gl w') = gl_programs (gl w) /\
  gl_shaders (gl w') = gl_shaders (gl w) /\
  gl_current_program (gl w') = gl_current_program (gl w).
Proof.
  induction evs as [|ev evs IH]; intros w; cbv zeta.
  - cbn. rewrite app_nil_r, orb_false_r. repeat split; reflexivity.
  - change (exec (dispatch_all (ev :: evs)) w)
      with (exec (dispatch_all evs) (exec (dispatch ev) w)).
    destruct (IH (exec (dispatch ev) w))
      as (Hc & Hs & Hz & Hk & Hb & Hp & Hg & Hh & Hcur).
    rewrite Hc, Hs, Hz, Hk, Hb, Hp, Hg, Hh, Hcur. clear.
    destruct ev as [width height|]; [destruct (size_callback w) eqn:Hreg|].
    all: unfold exec, dispatch, framebuffer_size_callback, glViewport, bind; cbn.
    all: rewrite ?Hreg; cbn; rewrite <- ?app_assoc, ?orb_true_r.
    all: repeat split; reflexivity.
Qed.

Lemma glUseProgram_run (program : N) (w : World) :
  glUseProgram program w =
  (tt, mkWorld (calls w ++ [E_glUseProgram program]) (should_close w) (size_callback w)
               (clock w) (back_buffer w) (presented w)
               (set_programs (gl_programs (gl w)) (gl_next_object (gl w))
                             (program_after (gl w) program) (gl w))).
Proof.
  destruct w as [c sc cb k bb p g]. destruct g.
  unfold glUseProgram, program_after, bind. cbn.
  destruct ((program =? 0)%N || lookup_linked _ program); reflexivity.
Qed.

Lemma program_after_stable (g g1 : GlState) (program : N) :
  gl_programs g1 = gl_programs g ->
  gl_current_program g1 = program_after g program ->
  program_after g1 program = program_after g program /\
  lookup_linked g1 (program_after g program) = lookup_linked g (program_after g program).
Proof.
  intros Hp Hc. unfold program_after, lookup_linked in *. rewrite Hp, Hc.
  split; [|reflexivity].
  destruct ((program =? 0)%N || _); reflexivity.
Qed.

Lemma main_frame_spec (window : GLFWwindow) (shaderProgram VAO : N) (w : World) :
  let w' := exec (main_frame env window shaderProgram VAO) w in
  let current := program_after (gl w) shaderProgram in
  calls w' = calls w ++ frame_calls env (size_callback w) shaderProgram VAO (clock w) /\
  should_close w' = should_close w || close_condition env (clock w) /\
  size_callback w' = size_callback w /\
  clock w' = S (clock w) /\
  back_buffer w' = [] /\
  presented w' =
    presented w ++
    [back_buffer w ++ frame_image (lookup_linked (gl w) current) current VAO] /\
  gl_programs (gl w') = gl_programs (gl w) /\
  gl_shaders (gl w') = gl_shaders (gl w) /\
  gl_current_program (gl w') = current.
Proof.
  cbv zeta.
  unfold exec, main_frame, processInput, glfwGetKey, glfwPollEvents, bind,
    frame_calls, input_calls, close_condition, close_requested, escape_pressed.
  cbn -[glUseProgram].
  destruct (env_key env (clock w) GLFW_KEY_ESCAPE); cbn -[glUseProgram].
  all: rewrite !glUseProgram_run; unfold program_after, lookup_linked; cbn.
  all: match goal with
       | |- context [dispatch_all ?evs ?w0] =>
           destruct (dispatch_all_spec evs w0)
             as (Hc & Hs & Hz & Hk & Hb & Hp & Hg & Hh & Hu)
       end.
  all: unfold exec in *; rewrite Hc, Hs, Hz, Hk, Hb, Hp, Hg, Hh, Hu; cbn.
  all: rewrite <- ?app_assoc, ?orb_true_r; cbn.
  all: repeat split; reflexivity.
Qed.

Section Loop.

Variables (window : GLFWwindow) (shaderProgram VAO : N).

Lemma main_loop_closed (fuel : nat) (w : World) :
  should_close w = true ->
  main_loop env (S fuel) window shaderProgram VAO w =
  (true, exec (log E_glfwWindowShouldClose) w).
Proof.
  intros Hc. unfold exec. cbn. unfold bind. cbn. rewrite Hc. reflexivity.
Qed.

Lemma main_loop_step (fuel : nat) (w : World) :
  should_close w = false ->
  main_loop env (S fuel) window shaderProgram VAO w =
  main_loop env fuel window shaderProgram VAO
    (exec (main_frame env window shaderProgram VAO) (exec (log E_glfwWindowShouldClose) w)).
Proof.
  intros Hc. unfold exec. cbn. unfold bind at 1. cbn. rewrite Hc. reflexivity.
Qed.

(** The loop, iteration by iteration. *)
Lemma main_loop_spec (fuel : nat) : forall w : World,
  should_close w = false ->
  back_buffer w = [] ->
  let r := main_loop env fuel window shaderProgram VAO w in
  let n := frames_run env fuel (clock w) in
  let current := program_after (gl w) shaderProgram in
  calls (snd r) =
    calls w ++
    flat_map (fun i => E_glfwWindowShouldClose ::
                       frame_calls env (size_callback w) shaderProgram VAO i)
             (seq (clock w) n) ++
    (if fst r then [E_glfwWindowShouldClose] else []) /\
  presented (snd r) =
    presented w ++
    repeat (frame_image (lookup_linked (gl w) current) current VAO) n /\
  gl_programs (gl (snd r)) = gl_programs (gl w) /\
  gl_shaders (gl (snd r)) = gl_shaders (gl w).
Proof.
  induction fuel as [|fuel IH]; intros w Hopen Hback; cbv zeta.
  - cbn. rewrite !app_nil_r. repeat split; reflexivity.
  - rewrite main_loop_step by exact Hopen.
    set (w0 := exec (log E_glfwWindowShouldClose) w).
    destruct (main_frame_spec window shaderProgram VAO w0)
      as (Hc & Hs & Hz & Hk & Hb & Hp & Hg & Hh & Hu).
    set (w1 := exec (main_frame env window shaderProgram VAO) w0) in *.
    change (calls w0) with (calls w ++ [E_glfwWindowShouldClose]) in Hc.
    change (should_close w0) with (should_close w) in Hs.
    change (size_callback w0) with (size_callback w) in *.
    change (clock w0) with (clock w) in *.
    change (back_buffer w0) with (back_buffer w) in Hp.
    change (presented w0) with (presented w) in Hp.
    change (gl w0) with (gl w) in *.
    clearbody w1. clear w0.
    rewrite Hopen in Hs. rewrite Hback in Hp. cbn in Hs, Hp.
    cbn [frames_run].
    destruct (close_condition env (clock w)) eqn:Hcc.
    + (* the flag went up in this frame: the next test leaves the loop *)
      assert (Hlast : forall (tail : list Event),
                 (calls w1 ++ tail =
                  calls w ++
                  flat_map (fun i => E_glfwWindowShouldClose ::
                                     frame_calls env (size_callback w) shaderProgram VAO i)
                           (seq (clock w) 1) ++ tail)).
      { intros tail. rewrite Hc. cbn [seq flat_map]. rewrite app_nil_r, <- !app_assoc.
        reflexivity. }
      destruct fuel as [|fuel].
      * cbn [main_loop ret fst snd repeat]. rewrite <- (app_nil_r (calls w1)), Hlast.
        repeat split; assumption.
      * rewrite main_loop_closed by exact Hs.
        cbn [fst snd exec log calls presented gl repeat].
        rewrite Hlast. repeat split; assumption.
    + destruct (IH w1 Hs Hb) as (Ic & Ip & Ig & Ih).
      destruct (program_after_stable (gl w) (gl w1) shaderProgram Hg Hu) as (Hl1 & Hl2).
      rewrite Ic, Ip, Ig, Ih, Hc, Hp, Hg, Hh, Hk, Hz, Hl1, Hl2.
      cbn [seq flat_map repeat]. rewrite <- !app_assoc.
      repeat split; reflexivity.
Qed.

(** The loop is left through its condition exactly when some frame raises the
    close flag early enough for the next test to fit into [fuel]. *)
Lemma main_loop_exits_iff (fuel : nat) : forall w : World,
  should_close w = false ->
  fst (main_loop env fuel window shaderProgram VAO w) = true <->
  exists k : nat, close_condition env (clock w + k) = true /\ (k + 2 <= fuel)%nat.
Proof.
  induction fuel as [|fuel IH]; intros w Hopen.
  - cbn. split; [discriminate | intros (k & _ & Hk); lia].
  - rewrite main_loop_step by exact Hopen.
    set (w0 := exec (log E_glfwWindowShouldClose) w).
    destruct (main_frame_spec window shaderProgram VAO w0)
      as (_ & Hs & _ & Hk & _).
    set (w1 := exec (main_frame env window shaderProgram VAO) w0) in *.
    change (should_close w0) with (should_close w) in Hs.
    change (clock w0) with (clock w) in *.
    clearbody w1. clear w0.
    rewrite Hopen in Hs. cbn in Hs.
    destruct (close_condition env (clock w)) eqn:Hcc.
    + destruct fuel as [|fuel].
      * cbn. split; [discriminate | intros (k & _ & Hle); lia].
      * rewrite main_loop_closed by exact Hs. cbn. split; [intros _ | reflexivity].
        exists 0%nat. rewrite Nat.add_0_r. split; [exact Hcc | lia].
    + rewrite (IH w1 Hs), Hk. split.
      * intros (k & Hck & Hle). exists (S k).
        rewrite Nat.add_succ_r. split; [exact Hck | lia].
      * intros (k & Hck & Hle). destruct k as [|k].
        -- rewrite Nat.add_0_r in Hck. congruence.
        -- exists k. rewrite Nat.add_succ_r in Hck. split; [exact Hck | lia].
Qed.

End Loop.

End Facts.

(** ** The run up to the render loop *)

Lemma bind_run {A B : Type} (m : M A) (k : A -> M B) (w : World) (a : A) (w' : World) :
  m w = (a, w') -> bind m k w = k a w'.
Proof. intros H. unfold bind. rewrite H. reflexivity. Qed.

(** Runs the first call of a sequence on a world that is known. *)
Ltac run_step :=
  match goal with
  | |- context [@bind ?A ?B ?m ?k ?w] =>
      erewrite (@bind_run A B m k w) by (vm_compute; reflexivity); cbv beta
  end.

(** Case analysis on what the compiler [comp] and the linker [link] answered. *)
Ltac case_env comp link :=
  match goal with
  | |- context [comp ?t ?s] => destruct (comp t s) as [[|] ?]; cbn [fst snd]
  | |- context [link ?l] => destruct (link l) as [[|] ?]; cbn [fst snd]
  end.

(** Brings the compiler's and linker's answers in a statement into the shape
    in which running the program produces them. *)
Ltac expose_env :=
  unfold link_report_calls, link_result, vertex_compile, fragment_compile;
  let v := eval vm_compute in (c_str vertexShaderSource) in
  let f := eval vm_compute in (c_str fragmentShaderSource) in
  change (c_str vertexShaderSource) with v;
  change (c_str fragmentShaderSource) with f;
  cbn [env_compile env_link].

Lemma main_shaders_run (env : Env) :
  main_shaders env boot_world = (3%N, shaders_world env).
Proof.
  destruct env as [cw lg comp link key evs].
  unfold main_shaders, shaders_world, shader_calls. expose_env.
  repeat first [run_step | case_env comp link].
  all: vm_compute; reflexivity.
Qed.


Lemma main_geometry_run (env : Env) :
  main_geometry (shaders_world env) = (1%N, setup_world env).
Proof.
  unfold setup_world, exec.
  rewrite (surjective_pairing (main_geometry (shaders_world env))) at 1.
  f_equal.
Qed.

Lemma setup_world_spec (env : Env) :
  let w := setup_world env in
  calls w = boot_calls ++ shader_calls env ++ geometry_calls /\
  should_close w = false /\
  size_callback w = true /\
  clock w = 0%nat /\
  back_buffer w = [] /\
  presented w = [] /\
  gl_shaders (gl w) = gl_shaders (gl (shaders_world env)) /\
  gl_programs (gl w) = gl_programs (gl (shaders_world env)) /\
  gl_buffers (gl w) = <[1%N := mkBuffer 36 vertices GL_STATIC_DRAW]> ∅ /\
  gl_vertex_arrays (gl w) =
    <[1%N := <[0%N := mkAttrib true 3 GL_FLOAT false 12 0 1%N]> ∅]> ∅ /\
  gl_array_buffer_binding (gl w) = 0%N /\
  gl_vertex_array_binding (gl w) = 0%N.
Proof.
  destruct env as [cw lg comp link key evs].
  cbv zeta. unfold setup_world, shaders_world, shader_calls. expose_env.
  repeat case_env comp link.
  all: vm_compute; repeat split; reflexivity.
Qed.

Lemma main_booted (env : Env) (fuel : nat) :
  env_create_window env = true ->
  env_load_gl env = true ->
  main env fuel world0 = finish (main_loop env fuel the_window 3 1 (setup_world env)).
Proof.
  destruct env as [cw lg comp link key evs]. cbn [env_create_window env_load_gl].
  intros -> ->. unfold main.
  do 5 run_step. cbv iota.
  do 3 run_step. cbn [negb]. cbv iota.
  erewrite bind_run by (apply main_shaders_run). cbv beta.
  erewrite bind_run by (apply main_geometry_run). cbv beta.
  unfold bind, finish.
  destruct (fst (main_loop _ fuel the_window 3 1 (setup_world _))); reflexivity.
Qed.

(** ** Whole runs *)

Lemma loop_exits_iff (env : Env) (fuel : nat) :
  loop_exits env fuel = true <->
  exists k : nat, close_condition env k = true /\ (k + 2 <= fuel)%nat.
Proof.
  unfold loop_exits. rewrite existsb_exists. split.
  - intros (k & Hin & Hk). apply in_seq in Hin. exists k. split; [exact Hk | lia].
  - intros (k & Hk & Hle). exists k. split; [apply in_seq; lia | exact Hk].
Qed.

Lemma main_loop_exits (env : Env) (fuel : nat) :
  fst (main_loop env fuel the_window 3 1 (setup_world env)) = loop_exits env fuel.
Proof.
  destruct (setup_world_spec env) as (_ & Hopen & _ & Hclock & _).
  apply eq_true_iff_eq.
  rewrite (main_loop_exits_iff env the_window 3 1 fuel _ Hopen), Hclock.
  symmetry. apply loop_exits_iff.
Qed.

Lemma setup_linked (env : Env) :
  lookup_linked (gl (setup_world env)) 3 = fst (link_result env).
Proof.
  destruct (setup_world_spec env) as (_ & _ & _ & _ & _ & _ & _ & Hp & _).
  unfold lookup_linked. rewrite Hp. reflexivity.
Qed.

Lemma setup_program (env : Env) :
  let current := if fst (link_result env) then 3%N else 0%N in
  program_after (gl (setup_world env)) 3 = current /\
  lookup_linked (gl (setup_world env)) current = fst (link_result env).
Proof.
  cbv zeta.
  destruct (setup_world_spec env) as (_ & _ & _ & _ & _ & _ & _ & Hp & _).
  assert (Hcur : gl_current_program (gl (setup_world env)) =
                 if fst (link_result env) then 3%N else 0%N) by reflexivity.
  unfold program_after. rewrite setup_linked, Hcur. cbn [N.eqb orb].
  unfold lookup_linked. rewrite Hp. unfold shaders_world. cbn [gl gl_programs].
  destruct (fst (link_result env)) eqn:Hlink; (split; [reflexivity|]).
  - rewrite lookup_insert_eq. reflexivity.
  - rewrite lookup_insert_ne by discriminate. reflexivity.
Qed.

(** A run that gets past the bootstrap, call by call. *)
Lemma main_run (env : Env) (fuel : nat) :
  env_create_window env = true ->
  env_load_gl env = true ->
  let r := main env fuel world0 in
  let n := frames_run env fuel 0 in
  fst r = (if loop_exits env fuel then Some 0 else None) /\
  calls (snd r) =
    boot_calls ++ shader_calls env ++ geometry_calls ++
    flat_map (fun i => E_glfwWindowShouldClose :: frame_calls env true 3 1 i) (seq 0 n) ++
    (if loop_exits env fuel then [E_glfwWindowShouldClose; E_glfwTerminate] else []) /\
  presented (snd r) =
    repeat (frame_image (fst (link_result env))
                        (if fst (link_result env) then 3%N else 0%N) 1) n /\
  gl_shaders (gl (snd r)) = gl_shaders (gl (shaders_world env)) /\
  gl_programs (gl (snd r)) = gl_programs (gl (shaders_world env)).
Proof.
  intros Hw Hl. cbv zeta. rewrite (main_booted env fuel Hw Hl).
  destruct (setup_world_spec env)
    as (Hc & Hopen & Hreg & Hclock & Hback & Hpres & Hsh & Hpr & _).
  destruct (main_loop_spec env the_window 3 1 fuel _ Hopen Hback) as (Lc & Lp & Lg & Lh).
  destruct (setup_program env) as (Hcur & Hlinked).
  rewrite Hclock, Hreg, Hc, main_loop_exits in Lc.
  rewrite Hclock, Hpres, Hcur, Hlinked in Lp. cbn [app] in Lp.
  rewrite Hpr in Lg. rewrite Hsh in Lh.
  unfold finish. rewrite main_loop_exits.
  destruct (loop_exits env fuel); cbn [fst snd exec glfwTerminate log calls presented gl].
  - rewrite Lc, Lp, <- !app_assoc. repeat split; assumption.
  - rewrite Lc, Lp, <- !app_assoc. repeat split; assumption.
Qed.

Lemma main_no_window (env : Env) (fuel : nat) :
  env_create_window env = false ->
  main env fuel world0 =
  (Some (-1),
   mkWorld [ E_glfwInit;
             E_glfwWindowHint GLFW_CONTEXT_VERSION_MAJOR 3;
             E_glfwWindowHint GLFW_CONTEXT_VERSION_MINOR 3;
             E_glfwWindowHint GLFW_OPENGL_PROFILE GLFW_OPENGL_CORE_PROFILE;
             E_glfwCreateWindow 800 600 "LearnOpenGL";
             E_cout ("Failed to create GLFW window" +:+ endl);
             E_glfwTerminate ]
           false false 0 [] [] gl0).
Proof.
  destruct env as [cw lg comp link key evs]. cbn [env_create_window].
  intros ->. vm_compute. reflexivity.
Qed.

Lemma main_no_gl (env : Env) (fuel : nat) :
  env_create_window env = true ->
  env_load_gl env = false ->
  main env fuel world0 =
  (Some (-1),
   mkWorld (boot_calls ++ [E_cout ("Failed to initialize GLAD" +:+ endl)])
           false true 0 [] [] gl0).
Proof.
  destruct env as [cw lg comp link key evs]. cbn [env_create_window env_load_gl].
  intros -> ->. vm_compute. reflexivity.
Qed.

(** ** Lists of calls *)

Lemma count_app (p : Event -> bool) (l1 l2 : list Event) :
  count p (l1 ++ l2) = (count p l1 + count p l2)%nat.
Proof. unfold count. rewrite List.filter_app, length_app. reflexivity. Qed.

Lemma count_cons (p : Event -> bool) (e : Event) (l : list Event) :
  count p (e :: l) = ((if p e then 1 else 0) + count p l)%nat.
Proof. unfold count. cbn [List.filter]. destruct (p e); reflexivity. Qed.

Lemma count_flat_map (p : Event -> bool) (f : nat -> list Event) (c : nat) (l : list nat) :
  (forall i, count p (f i) = c) ->
  count p (flat_map f l) = (length l * c)%nat.
Proof.
  intros Hf. induction l as [|i l IH]; cbn [flat_map length].
  - reflexivity.
  - rewrite count_app, Hf, IH. lia.
Qed.

Lemma count_delivered (p : Event -> bool) (registered : bool) (evs : list WindowEvent) :
  (forall ev, p (E_deliver ev) = false) ->
  (forall x y width height, p (E_glViewport x y width height) = false) ->
  count p (delivered_calls registered evs) = 0%nat.
Proof.
  intros Hd Hv. unfold delivered_calls.
  induction evs as [|ev evs IH]; cbn [flat_map]; [reflexivity|].
  rewrite count_app, IH.
  destruct ev as [width height|]; [destruct registered|]; unfold count; cbn [List.filter].
  all: rewrite ?Hd, ?Hv; reflexivity.
Qed.

Lemma count_frame_draws (env : Env) (i : nat) :
  count is_draw (E_glfwWindowShouldClose :: frame_calls env true 3 1 i) = 1%nat.
Proof.
  unfold frame_calls, present_calls, input_calls.
  change (E_glfwWindowShouldClose :: ?l) with ([E_glfwWindowShouldClose] ++ l).
  rewrite !count_app, count_delivered by reflexivity.
  destruct (escape_pressed env i); reflexivity.
Qed.

Lemma count_shader_draws (env : Env) : count is_draw (shader_calls env) = 0%nat.
Proof.
  unfold shader_calls, report_calls, link_report_calls. rewrite !count_app.
  destruct (fst (vertex_compile env)), (fst (fragment_compile env)),
    (fst (link_result env)); reflexivity.
Qed.

Lemma count_run_draws (env : Env) (n : nat) (exits : bool) :
  count is_draw
    (boot_calls ++ shader_calls env ++ geometry_calls ++
     flat_map (fun i => E_glfwWindowShouldClose :: frame_calls env true 3 1 i) (seq 0 n) ++
     (if exits then [E_glfwWindowShouldClose; E_glfwTerminate] else [])) = n.
Proof.
  rewrite !count_app, count_shader_draws.
  rewrite (count_flat_map _ _ 1) by (intros i; apply count_frame_draws).
  rewrite length_seq. destruct exits; cbn; lia.
Qed.


Lemma draws_after_closing_le (l : list Event) :
  (draws_after_closing l <= count is_draw l)%nat.
Proof.
  induction l as [|e l IH]; cbn [draws_after_closing]; [lia|].
  unfold count in *. cbn [List.filter].
  destruct (closing e), (is_draw e); cbn [length]; lia.
Qed.

Lemma draws_after_closing_app (l1 l2 : list Event) :
  existsb closing l1 = false ->
  draws_after_closing (l1 ++ l2) = draws_after_closing l2.
Proof.
  induction l1 as [|e l1 IH]; cbn [existsb app draws_after_closing]; [reflexivity|].
  intros H. apply orb_false_elim in H as [He Hl1]. rewrite He. exact (IH Hl1).
Qed.

Lemma delivered_no_closing (evs : list WindowEvent) :
  existsb is_close_request evs = false ->
  existsb closing (delivered_calls true evs) = false.
Proof.
  unfold delivered_calls.
  induction evs as [|ev evs IH]; cbn [existsb flat_map]; [reflexivity|].
  intros H. apply orb_false_elim in H as [Hev Hevs].
  rewrite existsb_app, (IH Hevs).
  destruct ev; [reflexivity | discriminate].
Qed.

(** A frame that does not raise the close condition holds no closing event. *)
Lemma frame_no_closing (env : Env) (i : nat) :
  close_condition env i = false ->
  existsb closing (E_glfwWindowShouldClose :: frame_calls env true 3 1 i) = false.
Proof.
  unfold close_condition, close_requested. intros H.
  apply orb_false_elim in H as [Hesc Hreq].
  unfold frame_calls, input_calls, present_calls. rewrite Hesc.
  cbn [existsb app closing orb]. exact (delivered_no_closing _ Hreq).
Qed.

(** Draw calls that follow the first closing event of a frame: the frame's own
    draw when escape raised the flag, none when the flag is raised (if at all)
    by the events polled at the end. *)
Lemma frame_draws_after_closing (env : Env) (i : nat) (rest : list Event) :
  count is_draw rest = 0%nat ->
  draws_after_closing ((E_glfwWindowShouldClose :: frame_calls env true 3 1 i) ++ rest) =
  if escape_pressed env i then 1%nat else 0%nat.
Proof.
  intros Hrest. unfold frame_calls, input_calls, present_calls, render_calls.
  destruct (escape_pressed env i); cbn [app draws_after_closing closing].
  - rewrite !count_cons, count_app, count_delivered, Hrest by reflexivity. reflexivity.
  - apply Nat.le_0_r. etransitivity; [apply draws_after_closing_le|].
    rewrite count_app, count_delivered, Hrest by reflexivity. reflexivity.
Qed.

Lemma loop_draws_after_closing (env : Env) (rest : list Event) (fuel : nat) :
  count is_draw rest = 0%nat ->
  existsb closing rest = false ->
  forall i : nat,
    (draws_after_closing
       (flat_map (fun i => E_glfwWindowShouldClose :: frame_calls env true 3 1 i)
                 (seq i (frames_run env fuel i)) ++ rest) <= 1)%nat.
Proof.
  intros Hdraw Hclos.
  induction fuel as [|fuel IH]; intros i; cbn [frames_run seq flat_map].
  - cbn [app]. rewrite <- (app_nil_r rest), draws_after_closing_app by exact Hclos.
    cbn. lia.
  - rewrite <- app_assoc.
    destruct (close_condition env i) eqn:Hcc.
    + cbn [seq flat_map]. rewrite app_nil_l.
      rewrite (frame_draws_after_closing env i rest Hdraw).
      destruct (escape_pressed env i); lia.
    + rewrite draws_after_closing_app by (apply frame_no_closing; exact Hcc).
      apply IH.
Qed.

Lemma frames_run_first_close (env : Env) (k : nat) : forall fuel i : nat,
  (forall j : nat, (j < k)%nat -> close_condition env (i + j) = false) ->
  close_condition env (i + k) = true ->
  (k < fuel)%nat ->
  frames_run env fuel i = S k.
Proof.
  induction k as [|k IH]; intros fuel i Hbefore Hat Hfuel.
  - destruct fuel as [|fuel]; [lia|]. cbn [frames_run].
    rewrite Nat.add_0_r in Hat. rewrite Hat. reflexivity.
  - destruct fuel as [|fuel]; [lia|]. cbn [frames_run].
    rewrite <- (Nat.add_0_r i) at 1. rewrite (Hbefore 0%nat) by lia.
    f_equal. apply IH.
    + intros j Hj. rewrite Nat.add_succ_comm. apply Hbefore. lia.
    + rewrite Nat.add_succ_comm. exact Hat.
    + lia.
Qed.

Lemma first_close_draws_after_closing (env : Env) (rest : list Event) (k : nat) :
  count is_draw rest = 0%nat ->
  forall i : nat,
    (forall j : nat, (j < k)%nat -> close_condition env (i + j) = false) ->
    draws_after_closing
      (flat_map (fun i => E_glfwWindowShouldClose :: frame_calls env true 3 1 i)
                (seq i (S k)) ++ rest) =
    if escape_pressed env (i + k) then 1%nat else 0%nat.
Proof.
  intros Hdraw. induction k as [|k IH]; intros i Hbefore.
  - cbn [seq flat_map]. rewrite app_nil_r, Nat.add_0_r.
    apply frame_draws_after_closing. exact Hdraw.
  - change (seq i (S (S k))) with (i :: seq (S i) (S k)).
    cbn [flat_map]. rewrite <- app_assoc.
    rewrite draws_after_closing_app.
    + rewrite <- Nat.add_succ_comm. apply IH.
      intros j Hj. rewrite Nat.add_succ_comm. apply Hbefore. lia.
    + apply frame_no_closing. rewrite <- (Nat.add_0_r i). apply Hbefore. lia.
Qed.

Lemma shader_no_closing (env : Env) : existsb closing (shader_calls env) = false.
Proof.
  unfold shader_calls, report_calls, link_report_calls. rewrite !existsb_app.
  destruct (fst (vertex_compile env)), (fst (fragment_compile env)),
    (fst (link_result env)); reflexivity.
Qed.


Lemma count_frame_none (p : Event -> bool) (env : Env) (i : nat) :
  (forall ev, p (E_deliver ev) = false) ->
  (forall x y width height, p (E_glViewport x y width height) = false) ->
  p E_glfwWindowShouldClose = false ->
  p (E_glfwGetKey GLFW_KEY_ESCAPE) = false ->
  p (E_glfwSetWindowShouldClose true) = false ->
  count p (render_calls 3 1) = 0%nat ->
  p E_glfwSwapBuffers = false ->
  p E_glfwPollEvents = false ->
  count p (E_glfwWindowShouldClose :: frame_calls env true 3 1 i) = 0%nat.
Proof.
  intros Hd Hv H1 H2 H3 H4 H5 H6.
  unfold frame_calls, input_calls, present_calls.
  rewrite count_cons, !count_app, !count_cons, H1, H2, H4, count_delivered by assumption.
  destruct (escape_pressed env i); rewrite ?count_cons, ?H3, ?H5, ?H6; reflexivity.
Qed.

Lemma main_run_split (env : Env) (fuel : nat) :
  env_create_window env = true ->
  env_load_gl env = true ->
  calls (snd (main env fuel world0)) =
  (boot_calls ++
   compile_calls 1 GL_VERTEX_SHADER vertexShaderSource ++
   report_calls (fst (vertex_compile env)) 1 "ERROR::SHADER::VERTEX::COMPILATION_FAILED"
                (copy_log 512 (snd (vertex_compile env))) ++
   compile_calls 2 GL_FRAGMENT_SHADER fragmentShaderSource ++
   report_calls (fst (fragment_compile env)) 1 "ERROR::SHADER::FRAGMENT::COMPILATION_FAILED"
                (copy_log 512 (snd (vertex_compile env))) ++
   [E_glCreateProgram; E_glAttachShader 3 1; E_glAttachShader 3 2]) ++
  [E_glLinkProgram 3; E_glUseProgram 3; E_glDeleteShader 1; E_glDeleteShader 2] ++
  after_release env fuel.
Proof.
  intros Hw Hl. destruct (main_run env fuel Hw Hl) as (_ & Hc & _).
  rewrite Hc. unfold shader_calls, link_calls, after_release.
  rewrite <- !app_assoc. reflexivity.
Qed.

Lemma after_release_count (p : Event -> bool) (env : Env) (fuel : nat) :
  (forall i, count p (E_glfwWindowShouldClose :: frame_calls env true 3 1 i) = 0%nat) ->
  p (E_glGetProgramiv 3 GL_LINK_STATUS) = false ->
  (forall text, count p [E_glGetProgramInfoLog 3 512; E_cout text] = 0%nat) ->
  count p geometry_calls = 0%nat ->
  count p [E_glfwWindowShouldClose; E_glfwTerminate] = 0%nat ->
  count p (after_release env fuel) = 0%nat.
Proof.
  intros Hframe Hiv Hrep Hgeo Hend. unfold after_release, link_report_calls.
  rewrite !count_app, count_cons, Hiv, Hgeo, (count_flat_map _ _ 0) by exact Hframe.
  destruct (fst (link_result env)), (loop_exits env fuel); rewrite ?Hrep, ?Hend; cbn; lia.
Qed.

Lemma final_shaders (env : Env) (fuel : nat) :
  env_create_window env = true ->
  env_load_gl env = true ->
  let g := gl (snd (main env fuel world0)) in
  gl_shaders g !! 1%N =
    Some (mkShader GL_VERTEX_SHADER (c_str vertexShaderSource)
                   (fst (vertex_compile env)) (snd (vertex_compile env)) true) /\
  gl_shaders g !! 2%N =
    Some (mkShader GL_FRAGMENT_SHADER (c_str fragmentShaderSource)
                   (fst (fragment_compile env)) (snd (fragment_compile env)) true) /\
  gl_programs g !! 3%N =
    Some (mkProgram [1%N; 2%N] (fst (link_result env)) (snd (link_result env))).
Proof.
  intros Hw Hl. cbv zeta.
  destruct (main_run env fuel Hw Hl) as (_ & _ & _ & Hs & Hp).
  rewrite Hs, Hp. unfold shaders_world. cbn [gl gl_shaders gl_programs].
  split; [|split].
  - rewrite lookup_insert_ne by discriminate. apply lookup_insert_eq.
  - apply lookup_insert_eq.
  - apply lookup_insert_eq.
Qed.


(** ** The program selected for each draw *)






(** ** The claims *)

(** C1, as the code has it.  Link is attempted unconditionally: in every run
    past the bootstrap, whatever the two compilations answered, both stages
    are attached and [glLinkProgram] is called exactly once; a failed
    compilation only adds its diagnostic, and the link-success flag of the
    program is what the linker answers for the two shader objects. *)
Theorem link_always_attempted (env : Env) (fuel : nat) :
  env_create_window env = true ->
  env_load_gl env = true ->
  let w := snd (main env fuel world0) in
  count is_link (calls w) = 1%nat /\
  (exists pre post : list Event,
     calls w =
     pre ++ [E_glAttachShader 3 1; E_glAttachShader 3 2; E_glLinkProgram 3] ++ post) /\
  lookup_linked (gl w) 3 = fst (link_result env).
Proof.
  intros Hw Hl. cbv zeta.
  destruct (final_shaders env fuel Hw Hl) as (_ & _ & H3).
  pose proof (main_run_split env fuel Hw Hl) as Hc.
  split; [|split].
  - rewrite Hc, !count_app. unfold report_calls.
    rewrite after_release_count; try reflexivity.
    + destruct (fst (vertex_compile env)), (fst (fragment_compile env)); reflexivity.
    + intros i. apply count_frame_none; reflexivity.
  - exists (boot_calls ++
             compile_calls 1 GL_VERTEX_SHADER vertexShaderSource ++
             report_calls (fst (vertex_compile env)) 1
                          "ERROR::SHADER::VERTEX::COMPILATION_FAILED"
                          (copy_log 512 (snd (vertex_compile env))) ++
             compile_calls 2 GL_FRAGMENT_SHADER fragmentShaderSource ++
             report_calls (fst (fragment_compile env)) 1
                          "ERROR::SHADER::FRAGMENT::COMPILATION_FAILED"
                          (copy_log 512 (snd (vertex_compile env))) ++
             [E_glCreateProgram]).
    exists ([E_glUseProgram 3; E_glDeleteShader 1; E_glDeleteShader 2] ++
            after_release env fuel).
    rewrite Hc, <- !app_assoc. reflexivity.
  - unfold lookup_linked. rewrite H3. reflexivity.
Qed.
Lemma link_always_attempted_witness :
  count is_link (calls (snd (main env_fragment_broken 3 world0))) = 1%nat /\
  lookup_linked (gl (snd (main env_fragment_broken 3 world0))) 3 = false.
Proof.
  destruct (link_always_attempted env_fragment_broken 3) as (Hn & _ & Hf).
  - reflexivity.
  - reflexivity.
  - split; [exact Hn | rewrite Hf; reflexivity].
Defined.

(** C1 as stated fails: with a vertex shader that does not compile the run
    still calls [glLinkProgram] (and ends normally). *)
Lemma link_after_failed_compile :
  fst (vertex_compile env_vertex_broken) = false /\
  fst (main env_vertex_broken 3 world0) = Some 0 /\
  count is_link (calls (snd (main env_vertex_broken 3 world0))) = 1%nat.
Proof. vm_compute. repeat split; reflexivity. Qed.




(** C3 at a failing input.  The fragment shader does not compile (its own info
    log holds the error), the vertex shader does (empty info log): after the
    status query on shader 2 the run fetches the info log of shader 1, the
    vertex shader, and the fragment diagnostic it prints carries that empty
    log.  The info log of shader 2 is never fetched. *)
Theorem fragment_failure_reads_vertex_log :
  let tr := calls (snd (main env_fragment_broken 3 world0)) in
  fragment_compile env_fragment_broken = (false, "0:6(1): error: syntax error") /\
  vertex_compile env_fragment_broken = (true, "") /\
  count (reads_log_of 2) tr = 0%nat /\
  count (reads_log_of 1) tr = 1%nat /\
  exists pre post : list Event,
    tr = pre ++
         [ E_glCompileShader 2;
           E_glGetShaderiv 2 GL_COMPILE_STATUS;
           E_glGetShaderInfoLog 1 512;
           E_cout ("ERROR::SHADER::FRAGMENT::COMPILATION_FAILED" +:+ nl +:+ "" +:+ endl) ] ++
         post.
Proof.
  cbv zeta. repeat (split; [vm_compute; reflexivity|]).
  exists (boot_calls ++ compile_calls 1 GL_VERTEX_SHADER vertexShaderSource ++
          [E_glCreateShader GL_FRAGMENT_SHADER; E_glShaderSource 2 fragmentShaderSource]).
  exists ([ E_glCreateProgram; E_glAttachShader 3 1; E_glAttachShader 3 2;
            E_glLinkProgram 3; E_glUseProgram 3; E_glDeleteShader 1; E_glDeleteShader 2 ] ++
          after_release env_fragment_broken 3).
  vm_compute. reflexivity.
Qed.

(** C4. The exit status is 0 exactly when the bootstrap succeeded and the loop
    was left through the close signal (some frame [k] raises the close
    condition, and [fuel] covers the [k + 1] iterations and the final test of
    the loop condition); it is -1, with no call of the render loop made,
    exactly when the window could not be created or the function table could
    not be loaded. *)
Theorem exit_code_spec (env : Env) (fuel : nat) :
  let r := main env fuel world0 in
  (fst r = Some 0 <->
   env_create_window env = true /\ env_load_gl env = true /\
   exists k : nat, close_condition env k = true /\ (k + 2 <= fuel)%nat) /\
  (fst r = Some (-1) /\ existsb is_loop_call (calls (snd r)) = false <->
   env_create_window env = false \/ env_load_gl env = false).
Proof.
  cbv zeta.
  destruct (env_create_window env) eqn:Hw.
  - destruct (env_load_gl env) eqn:Hl.
    + destruct (main_run env fuel Hw Hl) as (Hexit & _).
      rewrite Hexit, <- loop_exits_iff.
      destruct (loop_exits env fuel); intuition congruence.
    + rewrite (main_no_gl env fuel Hw Hl). cbn [fst snd calls].
      change (existsb is_loop_call _) with false. intuition congruence.
  - rewrite (main_no_window env fuel Hw). cbn [fst snd calls].
    change (existsb is_loop_call _) with false. intuition congruence.
Qed.

(** C5. Past the bootstrap, the calls of the render loop are, iteration after
    iteration and in this order: the test of the loop condition, the input
    poll ([glfwGetKey], with the close flag set when escape is down), the
    clear colour (0.2, 0.3, 0.3, 1.0), the clear of the colour buffer, the
    activation of the shader program, the binding of the vertex array, one
    [glDrawArrays] over triangles from vertex 0 for the number of uploaded
    vertices (three), the buffer swap, and the event poll with the events it
    hands over.  Every iteration holds exactly one draw call, and what each
    swap presents is that clear followed by that draw (issued with program 3
    current when it linked, with no program current when it did not). *)
Theorem frame_order (env : Env) (fuel : nat) :
  env_create_window env = true ->
  env_load_gl env = true ->
  let w := snd (main env fuel world0) in
  let n := frames_run env fuel 0 in
  let iteration (i : nat) :=
    input_calls env i ++
    [ E_glClearColor 0.2 0.3 0.3 1.0;
      E_glClear GL_COLOR_BUFFER_BIT;
      E_glUseProgram 3;
      E_glBindVertexArray 1;
      E_glDrawArrays GL_TRIANGLES 0 (sizeof_vertices / (3 * sizeof_float));
      E_glfwSwapBuffers;
      E_glfwPollEvents ] ++
    delivered_calls true (env_events env i) in
  calls w =
    boot_calls ++ shader_calls env ++ geometry_calls ++
    flat_map (fun i => E_glfwWindowShouldClose :: iteration i) (seq 0 n) ++
    (if loop_exits env fuel then [E_glfwWindowShouldClose; E_glfwTerminate] else []) /\
  (forall i : nat, count is_draw (iteration i) = 1%nat) /\
  count is_draw (calls w) = n /\
  presented w =
    repeat [ Cleared (mkColor 0.2 0.3 0.3 1.0);
             Drew (mkDraw (if fst (link_result env) then 3 else 0)
                          (fst (link_result env)) 1 GL_TRIANGLES 0 3) ] n.
Proof.
  intros Hw Hl. cbv zeta.
  destruct (main_run env fuel Hw Hl) as (_ & Hc & Hp & _).
  split; [exact Hc|]. split; [|split; [|exact Hp]].
  - intros i. exact (count_frame_draws env i).
  - rewrite Hc. apply count_run_draws.
Qed.

Lemma frame_order_witness :
  count is_draw (calls (snd (main env_demo 5 world0))) = 2%nat /\
  presented (snd (main env_demo 5 world0)) =
    [ [ Cleared (mkColor 0.2 0.3 0.3 1.0); Drew (mkDraw 3 true 1 GL_TRIANGLES 0 3) ];
      [ Cleared (mkColor 0.2 0.3 0.3 1.0); Drew (mkDraw 3 true 1 GL_TRIANGLES 0 3) ] ].
Proof.
  destruct (frame_order env_demo 5) as (_ & _ & Hd & Hp); [reflexivity | reflexivity |].
  split; [exact Hd | exact Hp].
Defined.

(** C6. In every run at most one draw call follows the first event that
    raises the close flag.  When frame [k] is the first to raise the close
    condition (escape down at its input poll, or a close request among the
    events polled at its end) and [fuel] covers the run, the loop performs
    exactly the iterations 0..k, each presented, and exits with status 0: the
    draw of iteration [k] is the one further draw when escape raised the flag,
    and no draw follows a close request. *)
Theorem close_ends_loop (env : Env) (fuel k : nat) :
  env_create_window env = true ->
  env_load_gl env = true ->
  close_condition env k = true ->
  (forall j : nat, (j < k)%nat -> close_condition env j = false) ->
  (k + 2 <= fuel)%nat ->
  let r := main env fuel world0 in
  fst r = Some 0 /\
  frames_run env fuel 0 = S k /\
  length (presented (snd r)) = S k /\
  count is_draw (calls (snd r)) = S k /\
  draws_after_closing (calls (snd r)) = (if escape_pressed env k then 1 else 0)%nat /\
  (forall fuel' : nat, (draws_after_closing (calls (snd (main env fuel' world0))) <= 1)%nat).
Proof.
  intros Hw Hl Hat Hbefore Hfuel. cbv zeta.
  assert (Hpre : forall l, draws_after_closing
                             (boot_calls ++ shader_calls env ++ geometry_calls ++ l) =
                           draws_after_closing l).
  { intros l. rewrite !draws_after_closing_app; [reflexivity | reflexivity | |reflexivity].
    apply shader_no_closing. }
  assert (Hn : frames_run env fuel 0 = S k).
  { apply frames_run_first_close; [exact Hbefore | exact Hat | lia]. }
  assert (Hexit : loop_exits env fuel = true).
  { apply loop_exits_iff. exists k. split; [exact Hat | exact Hfuel]. }
  destruct (main_run env fuel Hw Hl) as (He & Hc & Hp & _).
  rewrite Hexit in He, Hc. rewrite Hn in Hc, Hp.
  repeat split.
  - exact He.
  - exact Hn.
  - rewrite Hp. apply repeat_length.
  - rewrite Hc. exact (count_run_draws env (S k) true).
  - rewrite Hc, Hpre. apply (first_close_draws_after_closing env _ k); [reflexivity|].
    exact Hbefore.
  - intros fuel'. destruct (main_run env fuel' Hw Hl) as (_ & Hc' & _).
    rewrite Hc', Hpre. apply loop_draws_after_closing.
    + destruct (loop_exits env fuel'); reflexivity.
    + destruct (loop_exits env fuel'); reflexivity.
Qed.

Lemma close_ends_loop_witness :
  fst (main env_demo 5 world0) = Some 0 /\
  length (presented (snd (main env_demo 5 world0))) = 2%nat /\
  draws_after_closing (calls (snd (main env_demo 5 world0))) = 1%nat.
Proof.
  destruct (close_ends_loop env_demo 5 1) as (He & _ & Hp & _ & Hd & _).
  - reflexivity.
  - reflexivity.
  - reflexivity.
  - intros j Hj. assert (j = 0%nat) as -> by lia. reflexivity.
  - lia.
  - split; [exact He | split; [exact Hp | exact Hd]].
Defined.

(** C7. The geometry upload makes its calls in the stated order: bind the
    vertex array, bind the buffer to GL_ARRAY_BUFFER, copy the 36 bytes of
    [vertices], declare attribute 0 as three floats per vertex with stride
    [3 * sizeof(float)] and offset 0, enable attribute 0, unbind the buffer,
    unbind the vertex array.  The render loop is entered with that layout
    stored in vertex array 1 together with buffer 1 (the buffer that was bound
    when the layout was declared), the data in buffer 1, and nothing bound. *)
Theorem geometry_upload_order (env : Env) (fuel : nat) :
  env_create_window env = true ->
  env_load_gl env = true ->
  let upload :=
    [ E_glBindVertexArray 1;
      E_glBindBuffer GL_ARRAY_BUFFER 1;
      E_glBufferData GL_ARRAY_BUFFER (sizeof_float * 9) vertices GL_STATIC_DRAW;
      E_glVertexAttribPointer 0 3 GL_FLOAT false (3 * sizeof_float) 0;
      E_glEnableVertexAttribArray 0;
      E_glBindBuffer GL_ARRAY_BUFFER 0;
      E_glBindVertexArray 0 ] in
  let g := gl (setup_world env) in
  (exists post : list Event,
     calls (snd (main env fuel world0)) =
     (boot_calls ++ shader_calls env ++ [E_glGenBuffers 1; E_glGenVertexArrays 1]) ++
     upload ++ post) /\
  main env fuel world0 = finish (main_loop env fuel the_window 3 1 (setup_world env)) /\
  gl_vertex_arrays g !! 1%N =
    Some (<[0%N := mkAttrib true 3 GL_FLOAT false (3 * sizeof_float) 0 1%N]> ∅) /\
  gl_buffers g !! 1%N = Some (mkBuffer (sizeof_float * 9) vertices GL_STATIC_DRAW) /\
  gl_array_buffer_binding g = 0%N /\
  gl_vertex_array_binding g = 0%N.
Proof.
  intros Hw Hl. cbv zeta.
  destruct (main_run env fuel Hw Hl) as (_ & Hc & _).
  destruct (setup_world_spec env)
    as (_ & _ & _ & _ & _ & _ & _ & _ & Hbuf & Hvao & Hbb & Hvb).
  split; [|split; [|split; [|split; [|split]]]].
  - eexists. rewrite Hc, <- !app_assoc. unfold geometry_calls. cbn [app]. reflexivity.
  - exact (main_booted env fuel Hw Hl).
  - rewrite Hvao. apply lookup_insert_eq.
  - rewrite Hbuf. apply lookup_insert_eq.
  - exact Hbb.
  - exact Hvb.
Qed.

Lemma geometry_upload_order_witness :
  gl_vertex_arrays (gl (setup_world env_demo)) !! 1%N =
    Some (<[0%N := mkAttrib true 3 GL_FLOAT false 12 0 1%N]> ∅) /\
  gl_array_buffer_binding (gl (setup_world env_demo)) = 0%N.
Proof.
  destruct (geometry_upload_order env_demo 5) as (_ & _ & Hv & _ & Hb & _).
  - reflexivity.
  - reflexivity.
  - split; [exact Hv | exact Hb].
Defined.

(** C8. The resize callback makes exactly one call, [glViewport(0, 0, width,
    height)], so the viewport rectangle becomes the full surface: origin
    (0, 0), size width x height as notified.  A resize event polled while
    the callback is registered has that effect.  For that rectangle the
    viewport transformation is [t |-> width * (t + 1) / 2] horizontally and
    [t |-> height * (t + 1) / 2] vertically: -1 goes to pixel 0, +1 to pixel
    [width] (resp. [height]). *)
Theorem resize_full_surface (window : GLFWwindow) (width height : Z) (w : World) :
  let w' := exec (framebuffer_size_callback window width height) w in
  let vp := mkViewport 0 0 width height in
  calls w' = calls w ++ [E_glViewport 0 0 width height] /\
  gl_viewport (gl w') = Some vp /\
  gl_viewport (gl (exec (dispatch (FramebufferSize width height)) w)) =
    (if size_callback w then Some vp else gl_viewport (gl w)) /\
  (window_x vp (-1) == 0)%Q /\
  (window_x vp 1 == inject_Z width)%Q /\
  (window_y vp (-1) == 0)%Q /\
  (window_y vp 1 == inject_Z height)%Q /\
  (forall t : Q, window_x vp t == inject_Z width * (t + 1) / 2)%Q /\
  (forall t : Q, window_y vp t == inject_Z height * (t + 1) / 2)%Q.
Proof.
  cbv zeta.
  split; [reflexivity|]. split; [reflexivity|]. split.
  { unfold exec, dispatch, bind. cbn. destruct (size_callback w); reflexivity. }
  unfold window_x, window_y. cbn [vp_x vp_y vp_width vp_height].
  repeat match goal with |- _ /\ _ => split end; intros; field.
Qed.

(** C9. Whatever the linker answers, the link attempt is followed by the
    activation of the program and then directly by [glDeleteShader] on the
    vertex and on the fragment stage; no later call of the run takes a stage
    handle.  At the end of the run both stages are flagged deleted and program
    3 is still there, with the link status the linker gave it. *)
Theorem stage_handles_released (env : Env) (fuel : nat) :
  env_create_window env = true ->
  env_load_gl env = true ->
  let w := snd (main env fuel world0) in
  (exists pre post : list Event,
     calls w =
     pre ++
     [E_glLinkProgram 3; E_glUseProgram 3; E_glDeleteShader 1; E_glDeleteShader 2] ++
     post /\
     count is_link pre = 0%nat /\
     count uses_stage post = 0%nat) /\
  sh_delete_status <$> gl_shaders (gl w) !! 1%N = Some true /\
  sh_delete_status <$> gl_shaders (gl w) !! 2%N = Some true /\
  gl_programs (gl w) !! 3%N =
    Some (mkProgram [1%N; 2%N] (fst (link_result env)) (snd (link_result env))).
Proof.
  intros Hw Hl. cbv zeta.
  destruct (final_shaders env fuel Hw Hl) as (H1 & H2 & H3).
  split; [|rewrite H1, H2; repeat split; exact H3].
  eexists. exists (after_release env fuel).
  split; [apply (main_run_split env fuel Hw Hl)|]. split.
  - unfold report_calls. rewrite !count_app.
    destruct (fst (vertex_compile env)), (fst (fragment_compile env)); reflexivity.
  - apply after_release_count; try reflexivity.
    intros i. apply count_frame_none; reflexivity.
Qed.

Lemma stage_handles_released_witness :
  sh_delete_status <$> gl_shaders (gl (snd (main env_link_broken 3 world0))) !! 1%N
    = Some true /\
  sh_delete_status <$> gl_shaders (gl (snd (main env_link_broken 3 world0))) !! 2%N
    = Some true /\
  pr_link_status <$> gl_programs (gl (snd (main env_link_broken 3 world0))) !! 3%N
    = Some false.
Proof.
  destruct (stage_handles_released env_link_broken 3) as (_ & H1 & H2 & H3).
  - reflexivity.
  - reflexivity.
  - rewrite H3. split; [exact H1 | split; [exact H2 | reflexivity]].
Defined.

(** C10. The two fatal paths differ in cleanup.  When the window cannot be
    created the run ends with the diagnostic followed by [glfwTerminate] and
    status -1; when only the function table cannot be loaded it ends with the
    diagnostic and status -1 and [glfwTerminate] is never called. *)
Theorem fatal_paths_cleanup (env : Env) (fuel : nat) :
  env_create_window env = false \/ env_load_gl env = false ->
  let r := main env fuel world0 in
  fst r = Some (-1) /\
  calls (snd r) =
    (if env_create_window env
     then boot_calls ++ [E_cout ("Failed to initialize GLAD" +:+ endl)]
     else [ E_glfwInit;
            E_glfwWindowHint GLFW_CONTEXT_VERSION_MAJOR 3;
            E_glfwWindowHint GLFW_CONTEXT_VERSION_MINOR 3;
            E_glfwWindowHint GLFW_OPENGL_PROFILE GLFW_OPENGL_CORE_PROFILE;
            E_glfwCreateWindow 800 600 "LearnOpenGL";
            E_cout ("Failed to create GLFW window" +:+ endl);
            E_glfwTerminate ]) /\
  count is_terminate (calls (snd r)) = (if env_create_window env then 0 else 1)%nat.
Proof.
  intros Hfatal. cbv zeta.
  destruct (env_create_window env) eqn:Hw.
  - destruct Hfatal as [Hf|Hl]; [discriminate|].
    rewrite (main_no_gl env fuel Hw Hl). repeat split; reflexivity.
  - rewrite (main_no_window env fuel Hw). repeat split; reflexivity.
Qed.

Lemma fatal_paths_cleanup_witness :
  (fst (main env_no_window 5 world0) = Some (-1) /\
   count is_terminate (calls (snd (main env_no_window 5 world0))) = 1%nat) /\
  (fst (main env_no_gl 5 world0) = Some (-1) /\
   count is_terminate (calls (snd (main env_no_gl 5 world0))) = 0%nat).
Proof.
  split.
  - destruct (fatal_paths_cleanup env_no_window 5) as (Hexit & _ & Hterm).
    + left. reflexivity.
    + split; [exact Hexit | exact Hterm].
  - destruct (fatal_paths_cleanup env_no_gl 5) as (Hexit & _ & Hterm).
    + right. reflexivity.
    + split; [exact Hexit | exact Hterm].
Defined.

(** ** Further facts about the loop *)

Lemma last_resize_app (evs1 evs2 : list WindowEvent) :
  last_resize (evs1 ++ evs2) =
  match last_resize evs2 with
  | Some size => Some size
  | None => last_resize evs1
  end.
Proof.
  induction evs1 as [|ev evs1 IH]; cbn [app last_resize].
  - destruct (last_resize evs2); reflexivity.
  - rewrite IH. destruct (last_resize evs2); reflexivity.
Qed.

Lemma viewport_of_app (evs1 evs2 : list WindowEvent) (old : option Viewport) :
  viewport_of (last_resize (evs1 ++ evs2)) old =
  viewport_of (last_resize evs2) (viewport_of (last_resize evs1) old).
Proof.
  rewrite last_resize_app. destruct (last_resize evs2) as [[? ?]|]; reflexivity.
Qed.

(** What a batch of events does to the OpenGL state: only the viewport moves. *)
Lemma dispatch_all_state (evs : list WindowEvent) : forall w : World,
  size_callback w = true ->
  let g' := gl (exec (dispatch_all evs) w) in
  gl_viewport g' = viewport_of (last_resize evs) (gl_viewport (gl w)) /\
  gl_buffers g' = gl_buffers (gl w) /\
  gl_vertex_arrays g' = gl_vertex_arrays (gl w) /\
  gl_current_program g' = gl_current_program (gl w) /\
  gl_vertex_array_binding g' = gl_vertex_array_binding (gl w) /\
  gl_array_buffer_binding g' = gl_array_buffer_binding (gl w) /\
  gl_clear_color g' = gl_clear_color (gl w).
Proof.
  induction evs as [|ev evs IH]; intros w Hreg; cbv zeta.
  - cbn. repeat split; reflexivity.
  - change (exec (dispatch_all (ev :: evs)) w)
      with (exec (dispatch_all evs) (exec (dispatch ev) w)).
    assert (Hreg' : size_callback (exec (dispatch ev) w) = true).
    { destruct ev; unfold exec, dispatch, framebuffer_size_callback, glViewport, bind;
        cbn; rewrite ?Hreg; cbn; first [exact Hreg | reflexivity]. }
    destruct (IH _ Hreg') as (Hv & Hb & Ha & Hp & Hvb & Hab & Hc).
    rewrite Hv, Hb, Ha, Hp, Hvb, Hab, Hc. clear IH Hv Hb Ha Hp Hvb Hab Hc Hreg'.
    change (ev :: evs) with ([ev] ++ evs). rewrite viewport_of_app.
    destruct ev as [width height|].
    all: unfold exec, dispatch, framebuffer_size_callback, glViewport, bind; cbn.
    all: rewrite ?Hreg; cbn; repeat split; reflexivity.
Qed.

Section LoopState.

Variables (env : Env) (window : GLFWwindow) (shaderProgram VAO : N).

(** One iteration, as far as the flags, the clock and the OpenGL state go. *)
Lemma main_frame_state (w : World) :
  size_callback w = true ->
  is_Some (gl_vertex_arrays (gl w) !! VAO) ->
  let w' := exec (main_frame env window shaderProgram VAO) w in
  should_close w' = should_close w || close_condition env (clock w) /\
  size_callback w' = true /\
  clock w' = S (clock w) /\
  gl_viewport (gl w') =
    viewport_of (last_resize (env_events env (clock w))) (gl_viewport (gl w)) /\
  gl_buffers (gl w') = gl_buffers (gl w) /\
  gl_vertex_arrays (gl w') = gl_vertex_arrays (gl w) /\
  gl_programs (gl w') = gl_programs (gl w) /\
  gl_current_program (gl w') = program_after (gl w) shaderProgram /\
  gl_vertex_array_binding (gl w') = VAO /\
  gl_array_buffer_binding (gl w') = gl_array_buffer_binding (gl w) /\
  gl_clear_color (gl w') = mkColor 0.2 0.3 0.3 1.0.
Proof.
  intros Hreg [attribs Hvao]. cbv zeta.
  destruct (main_frame_spec env window shaderProgram VAO w)
    as (_ & Hs & Hz & Hk & _ & _ & Hprog & _ & Hcur).
  rewrite Hs, Hz, Hk, Hprog, Hcur.
  split; [reflexivity|]. split; [exact Hreg|]. split; [reflexivity|].
  unfold exec, main_frame, processInput, glfwGetKey, glfwPollEvents, bind.
  cbn -[glUseProgram].
  destruct (env_key env (clock w) GLFW_KEY_ESCAPE); cbn -[glUseProgram].
  all: rewrite !glUseProgram_run; cbn -[program_after].
  all: rewrite Hvao.
  all: match goal with
       | |- context [dispatch_all ?evs ?w0] =>
           destruct (dispatch_all_state evs w0 Hreg) as (Hv & Hb & Ha & Hp & Hvb & Hab & Hc)
       end.
  all: unfold exec in *; rewrite Hv, Hb, Ha, ?Hp, Hvb, Hab, Hc; cbn -[program_after].
  all: destruct (VAO =? 0)%N; cbn -[program_after]; repeat split; reflexivity.
Qed.

(** The loop, as far as the flags, the clock and the OpenGL state go. *)
Lemma main_loop_state (fuel : nat) : forall w : World,
  should_close w = false ->
  size_callback w = true ->
  is_Some (gl_vertex_arrays (gl w) !! VAO) ->
  let w' := snd (main_loop env fuel window shaderProgram VAO w) in
  let n := frames_run env fuel (clock w) in
  should_close w' = existsb (close_condition env) (seq (clock w) n) /\
  clock w' = (clock w + n)%nat /\
  gl_viewport (gl w') =
    viewport_of (last_resize (polled env (clock w) n)) (gl_viewport (gl w)) /\
  gl_buffers (gl w') = gl_buffers (gl w) /\
  gl_vertex_arrays (gl w') = gl_vertex_arrays (gl w) /\
  gl_array_buffer_binding (gl w') = gl_array_buffer_binding (gl w) /\
  gl_programs (gl w') = gl_programs (gl w) /\
  gl_current_program (gl w') =
    match n with
    | O => gl_current_program (gl w)
    | S _ => program_after (gl w) shaderProgram
    end /\
  gl_vertex_array_binding (gl w') =
    match n with O => gl_vertex_array_binding (gl w) | S _ => VAO end /\
  gl_clear_color (gl w') =
    match n with O => gl_clear_color (gl w) | S _ => mkColor 0.2 0.3 0.3 1.0 end.
Proof.
  induction fuel as [|fuel IH]; intros w Hopen Hreg Hvao; cbv zeta.
  - cbn. rewrite Hopen, Nat.add_0_r. repeat split; reflexivity.
  - rewrite main_loop_step by exact Hopen.
    set (w0 := exec (log E_glfwWindowShouldClose) w).
    destruct (main_frame_state w0 Hreg Hvao)
      as (Hs & Hz & Hk & Hv & Hb & Ha & Hg & Hp & Hvb & Hab & Hc).
    set (w1 := exec (main_frame env window shaderProgram VAO) w0) in *.
    change (should_close w0) with (should_close w) in Hs.
    change (clock w0) with (clock w) in *.
    change (gl w0) with (gl w) in *.
    clearbody w1. clear w0.
    rewrite Hopen in Hs. cbn [orb] in Hs.
    cbn [frames_run]. unfold polled.
    destruct (close_condition env (clock w)) eqn:Hcc.
    + assert (Hlast : forall w2 : World,
                 should_close w2 = should_close w1 -> clock w2 = clock w1 -> gl w2 = gl w1 ->
                 should_close w2 = existsb (close_condition env) (seq (clock w) 1) /\
                 clock w2 = (clock w + 1)%nat /\
                 gl_viewport (gl w2) =
                   viewport_of (last_resize (flat_map (env_events env) (seq (clock w) 1)))
                               (gl_viewport (gl w)) /\
                 gl_buffers (gl w2) = gl_buffers (gl w) /\
                 gl_vertex_arrays (gl w2) = gl_vertex_arrays (gl w) /\
                 gl_array_buffer_binding (gl w2) = gl_array_buffer_binding (gl w) /\
                 gl_programs (gl w2) = gl_programs (gl w) /\
                 gl_current_program (gl w2) = program_after (gl w) shaderProgram /\
                 gl_vertex_array_binding (gl w2) = VAO /\
                 gl_clear_color (gl w2) = mkColor 0.2 0.3 0.3 1.0).
      { intros w2 E1 E2 E3. rewrite E1, E2, E3, Hs, Hk, Hv, Hb, Ha, Hg, Hp, Hvb, Hab, Hc.
        cbn [seq flat_map existsb]. rewrite Hcc, app_nil_r, Nat.add_1_r.
        repeat split; reflexivity. }
      destruct fuel as [|fuel].
      * cbn [main_loop ret snd]. apply Hlast; reflexivity.
      * rewrite main_loop_closed by exact Hs. cbn [snd]. apply Hlast; reflexivity.
    + assert (Hvao1 : is_Some (gl_vertex_arrays (gl w1) !! VAO)) by (rewrite Ha; exact Hvao).
      destruct (IH w1 Hs Hz Hvao1) as (Is & Ik & Iv & Ib & Ia & Iab & Ig & Ip & Ivb & Ic).
      unfold polled in Iv.
      destruct (program_after_stable (gl w) (gl w1) shaderProgram Hg Hp) as (Hst & _).
      rewrite Is, Ik, Iv, Ib, Ia, Iab, Ig, Ip, Ivb, Ic, Hst, Hk, Hv, Hb, Ha, Hg, Hp, Hvb,
        Hab, Hc.
      cbn [seq flat_map existsb]. rewrite Hcc, viewport_of_app, Nat.add_succ_comm.
      destruct (frames_run env fuel (S (clock w))); repeat split; reflexivity.
Qed.

End LoopState.


(** ** Further facts about whole runs *)

Lemma main_loop_exit_flag (env : Env) (window : GLFWwindow) (shaderProgram VAO : N)
    (fuel : nat) : forall w : World,
  fst (main_loop env fuel window shaderProgram VAO w) = true ->
  should_close (snd (main_loop env fuel window shaderProgram VAO w)) = true.
Proof.
  induction fuel as [|fuel IH]; intros w; [discriminate|].
  destruct (should_close w) eqn:Hc.
  - rewrite main_loop_closed by exact Hc. intros _. exact Hc.
  - rewrite main_loop_step by exact Hc. apply IH.
Qed.

Lemma setup_world_state (env : Env) :
  gl_viewport (gl (setup_world env)) = None /\
  gl_current_program (gl (setup_world env)) =
    (if fst (link_result env) then 3%N else 0%N) /\
  gl_clear_color (gl (setup_world env)) = mkColor 0 0 0 0.
Proof. repeat split; reflexivity. Qed.

(** The state a run past the bootstrap ends in. *)
Lemma main_run_state (env : Env) (fuel : nat) :
  env_create_window env = true ->
  env_load_gl env = true ->
  let w := snd (main env fuel world0) in
  let n := frames_run env fuel 0 in
  should_close w = existsb (close_condition env) (seq 0 n) /\
  gl_viewport (gl w) = viewport_of (last_resize (polled env 0 n)) None /\
  gl_buffers (gl w) = <[1%N := mkBuffer 36 vertices GL_STATIC_DRAW]> ∅ /\
  gl_vertex_arrays (gl w) =
    <[1%N := <[0%N := mkAttrib true 3 GL_FLOAT false 12 0 1%N]> ∅]> ∅ /\
  gl_array_buffer_binding (gl w) = 0%N /\
  gl_current_program (gl w) = (if fst (link_result env) then 3%N else 0%N) /\
  gl_vertex_array_binding (gl w) = match n with O => 0%N | S _ => 1%N end /\
  gl_clear_color (gl w) =
    match n with O => mkColor 0 0 0 0 | S _ => mkColor 0.2 0.3 0.3 1.0 end.
Proof.
  intros Hw Hl. cbv zeta. rewrite (main_booted env fuel Hw Hl).
  destruct (setup_world_spec env)
    as (_ & Hopen & Hreg & Hclock & _ & _ & _ & _ & Hbuf & Hvao & Hab & Hvb).
  destruct (setup_world_state env) as (Hview & Hprog & Hcol).
  assert (Hsome : is_Some (gl_vertex_arrays (gl (setup_world env)) !! 1%N)).
  { rewrite Hvao, lookup_insert_eq. eexists. reflexivity. }
  destruct (main_loop_state env the_window 3 1 fuel _ Hopen Hreg Hsome)
    as (Ls & _ & Lv & Lb & La & Lab & _ & Lp & Lvb & Lc).
  destruct (setup_program env) as (Hafter & _).
  rewrite Hclock, ?Hview, ?Hbuf, ?Hvao, ?Hab, ?Hprog, ?Hvb, ?Hcol, ?Hafter in *.
  assert (Lp' : gl_current_program
                  (gl (snd (main_loop env fuel the_window 3 1 (setup_world env)))) =
                (if fst (link_result env) then 3%N else 0%N)).
  { rewrite Lp. destruct (frames_run env fuel 0); reflexivity. }
  unfold finish.
  destruct (fst (main_loop env fuel the_window 3 1 (setup_world env)));
    cbn [fst snd exec glfwTerminate log should_close gl];
    repeat split; assumption.
Qed.

Lemma substring_0_length (n : nat) : forall s : string,
  String.length (String.substring 0 n s) = Nat.min n (String.length s).
Proof.
  induction n as [|n IH]; intros s.
  - destruct s; reflexivity.
  - destruct s as [|c s]; cbn [String.substring String.length Nat.min]; [reflexivity|].
    rewrite IH. reflexivity.
Qed.

Lemma substring_0_prefix (n : nat) : forall s : string,
  String.prefix (String.substring 0 n s) s = true.
Proof.
  induction n as [|n IH]; intros s.
  - destruct s; reflexivity.
  - destruct s as [|c s]; cbn [String.substring String.prefix]; [reflexivity|].
    destruct (ascii_dec c c) as [_|Hne]; [apply IH | congruence].
Qed.

Lemma copy_log_512 (log : string) :
  String.prefix (copy_log 512 log) log = true /\
  String.length (copy_log 512 log) = Nat.min 511 (String.length log).
Proof.
  unfold copy_log. change (Z.to_nat (512 - 1)) with 511%nat.
  split; [apply substring_0_prefix | apply substring_0_length].
Qed.

Lemma frames_run_no_close (env : Env) (fuel : nat) : forall i : nat,
  (forall j : nat, (j < fuel)%nat -> close_condition env (i + j) = false) ->
  frames_run env fuel i = fuel.
Proof.
  induction fuel as [|fuel IH]; intros i Hno; cbn [frames_run]; [reflexivity|].
  rewrite <- (Nat.add_0_r i) at 1. rewrite (Hno 0%nat) by lia.
  f_equal. apply IH. intros j Hj. rewrite Nat.add_succ_comm. apply Hno. lia.
Qed.

Lemma count_shader_couts (env : Env) :
  count is_cout (shader_calls env) =
  ((if fst (vertex_compile env) then 0 else 1) +
   (if fst (fragment_compile env) then 0 else 1) +
   (if fst (link_result env) then 0 else 1))%nat.
Proof.
  unfold shader_calls, report_calls, link_report_calls. rewrite !count_app.
  destruct (fst (vertex_compile env)), (fst (fragment_compile env)),
    (fst (link_result env)); reflexivity.
Qed.

Lemma count_shader_terminates (env : Env) : count is_terminate (shader_calls env) = 0%nat.
Proof.
  unfold shader_calls, report_calls, link_report_calls. rewrite !count_app.
  destruct (fst (vertex_compile env)), (fst (fragment_compile env)),
    (fst (link_result env)); reflexivity.
Qed.

Lemma count_shader_uploads (env : Env) : count is_upload (shader_calls env) = 0%nat.
Proof.
  unfold shader_calls, report_calls, link_report_calls. rewrite !count_app.
  destruct (fst (vertex_compile env)), (fst (fragment_compile env)),
    (fst (link_result env)); reflexivity.
Qed.

(** Counting over a whole run past the bootstrap, for calls that the loop
    iterations do not make. *)
Lemma count_run_outside_loop (p : Event -> bool) (env : Env) (n : nat) (exits : bool) :
  (forall i, count p (E_glfwWindowShouldClose :: frame_calls env true 3 1 i) = 0%nat) ->
  count p
    (boot_calls ++ shader_calls env ++ geometry_calls ++
     flat_map (fun i => E_glfwWindowShouldClose :: frame_calls env true 3 1 i) (seq 0 n) ++
     (if exits then [E_glfwWindowShouldClose; E_glfwTerminate] else [])) =
  (count p boot_calls + count p (shader_calls env) + count p geometry_calls +
   (if exits then count p [E_glfwWindowShouldClose; E_glfwTerminate] else 0))%nat.
Proof.
  intros Hframe. rewrite !count_app, (count_flat_map _ _ 0) by exact Hframe.
  destruct exits; cbn [count List.filter length]; lia.
Qed.

(** ** Further properties of the program *)

(** X1. The viewport follows the window.  At the end of every run past the
    bootstrap the viewport rectangle is the full surface of the last resize
    notification polled in the iterations that ran, and it was never set when
    no resize was polled: [main] itself makes no [glViewport] call. *)
Theorem viewport_follows_last_resize (env : Env) (fuel : nat) :
  env_create_window env = true ->
  env_load_gl env = true ->
  let w := snd (main env fuel world0) in
  let resizes := polled env 0 (frames_run env fuel 0) in
  gl_viewport (gl w) =
    match last_resize resizes with
    | Some (width, height) => Some (mkViewport 0 0 width height)
    | None => None
    end.
Proof.
  intros Hw Hl. cbv zeta.
  destruct (main_run_state env fuel Hw Hl) as (_ & Hv & _). exact Hv.
Qed.

Lemma viewport_follows_last_resize_witness :
  gl_viewport (gl (snd (main env_idle 4 world0))) = Some (mkViewport 0 0 640 480).
Proof.
  rewrite (viewport_follows_last_resize env_idle 4); reflexivity.
Defined.

(** X2. The loop leaves the geometry alone.  However many iterations a run
    makes, the buffer and the vertex array hold at its end what the upload put
    there, the five creating and declaring calls of the upload were made once
    each and never again, and GL_ARRAY_BUFFER is unbound; the iterations only
    re-bind: once one has run, vertex array 1 stays bound.  The current
    program is program 3 when it linked and none (0) when it did not, since
    OpenGL refuses to install a program that is not linked. *)
Theorem loop_keeps_geometry (env : Env) (fuel : nat) :
  env_create_window env = true ->
  env_load_gl env = true ->
  let w := snd (main env fuel world0) in
  gl_buffers (gl w) !! 1%N = Some (mkBuffer sizeof_vertices vertices GL_STATIC_DRAW) /\
  gl_vertex_arrays (gl w) !! 1%N =
    Some (<[0%N := mkAttrib true 3 GL_FLOAT false (3 * sizeof_float) 0 1%N]> ∅) /\
  count is_upload (calls w) = 5%nat /\
  gl_array_buffer_binding (gl w) = 0%N /\
  gl_current_program (gl w) = (if fst (link_result env) then 3%N else 0%N) /\
  gl_vertex_array_binding (gl w) = (if (0 <? frames_run env fuel 0)%nat then 1%N else 0%N).
Proof.
  intros Hw Hl. cbv zeta.
  destruct (main_run_state env fuel Hw Hl) as (_ & _ & Hb & Ha & Hab & Hp & Hvb & _).
  destruct (main_run env fuel Hw Hl) as (_ & Hc & _).
  rewrite Hb, Ha, Hab, Hp, Hvb, Hc.
  split; [apply lookup_insert_eq|]. split; [apply lookup_insert_eq|].
  split; [|split; [reflexivity|split; [reflexivity|]]].
  - rewrite count_run_outside_loop by (intros i; apply count_frame_none; reflexivity).
    rewrite count_shader_uploads. destruct (loop_exits env fuel); reflexivity.
  - destruct (frames_run env fuel 0); reflexivity.
Qed.

Lemma loop_keeps_geometry_witness :
  (count is_upload (calls (snd (main env_idle 4 world0))) = 5%nat /\
   gl_vertex_array_binding (gl (snd (main env_idle 4 world0))) = 1%N /\
   gl_current_program (gl (snd (main env_idle 4 world0))) = 3%N) /\
  gl_current_program (gl (snd (main env_link_broken 3 world0))) = 0%N.
Proof.
  split.
  - destruct (loop_keeps_geometry env_idle 4) as (_ & _ & Hu & _ & Hp & Hvb).
    + reflexivity.
    + reflexivity.
    + split; [exact Hu | split; [exact Hvb | exact Hp]].
  - destruct (loop_keeps_geometry env_link_broken 3) as (_ & _ & _ & _ & Hp & _).
    + reflexivity.
    + reflexivity.
    + exact Hp.
Defined.

(** X3. The loop ends only through the close signal.  When none of the first
    [fuel] frames raises the close condition, a run past the bootstrap makes
    all [fuel] iterations, each presented with its draw, is still in the loop
    (no exit status), has the close flag down and has not called
    [glfwTerminate]. *)
Theorem loop_runs_until_closed (env : Env) (fuel : nat) :
  env_create_window env = true ->
  env_load_gl env = true ->
  (forall j : nat, (j < fuel)%nat -> close_condition env j = false) ->
  let r := main env fuel world0 in
  fst r = None /\
  length (presented (snd r)) = fuel /\
  count is_draw (calls (snd r)) = fuel /\
  count is_terminate (calls (snd r)) = 0%nat /\
  should_close (snd r) = false.
Proof.
  intros Hw Hl Hno. cbv zeta.
  assert (Hn : frames_run env fuel 0 = fuel) by (apply frames_run_no_close; exact Hno).
  assert (Hexit : loop_exits env fuel = false).
  { destruct (loop_exits env fuel) eqn:He; [|reflexivity].
    apply loop_exits_iff in He as (k & Hk & Hle). rewrite Hno in Hk by lia. discriminate. }
  destruct (main_run env fuel Hw Hl) as (He & Hc & Hp & _).
  destruct (main_run_state env fuel Hw Hl) as (Hs & _).
  rewrite Hexit in He, Hc. rewrite Hn in Hc, Hp, Hs.
  split; [exact He|]. split; [rewrite Hp; apply repeat_length|].
  split; [rewrite Hc; exact (count_run_draws env fuel false)|].
  split.
  - rewrite Hc. etransitivity.
    + apply (count_run_outside_loop is_terminate env fuel false).
      intros i. apply count_frame_none; reflexivity.
    + rewrite count_shader_terminates. reflexivity.
  - rewrite Hs. destruct (existsb (close_condition env) (seq 0 fuel)) eqn:E; [|reflexivity].
    apply existsb_exists in E as (j & Hin & Hj). apply in_seq in Hin.
    rewrite Hno in Hj by lia. discriminate.
Qed.

Lemma loop_runs_until_closed_witness :
  fst (main env_idle 4 world0) = None /\
  length (presented (snd (main env_idle 4 world0))) = 4%nat.
Proof.
  destruct (loop_runs_until_closed env_idle 4) as (He & Hp & _).
  - reflexivity.
  - reflexivity.
  - intros j Hj. do 4 (destruct j as [|j]; [reflexivity|]). lia.
  - split; [exact He | exact Hp].
Defined.

(** X4. A run that ends with status 0 has cleaned up: the bootstrap had
    succeeded, the close flag is up, and the last two calls are the final test
    of the loop condition and the one [glfwTerminate] of the run. *)
Theorem normal_exit_cleanup (env : Env) (fuel : nat) :
  fst (main env fuel world0) = Some 0 ->
  let w := snd (main env fuel world0) in
  env_create_window env = true /\
  env_load_gl env = true /\
  should_close w = true /\
  count is_terminate (calls w) = 1%nat /\
  exists pre : list Event, calls w = pre ++ [E_glfwWindowShouldClose; E_glfwTerminate].
Proof.
  intros Hexit. cbv zeta.
  destruct (env_create_window env) eqn:Hw;
    [|rewrite (main_no_window env fuel Hw) in Hexit; discriminate].
  destruct (env_load_gl env) eqn:Hl;
    [|rewrite (main_no_gl env fuel Hw Hl) in Hexit; discriminate].
  destruct (main_run env fuel Hw Hl) as (He & Hc & _).
  rewrite He in Hexit.
  destruct (loop_exits env fuel) eqn:Hle; [clear Hexit | discriminate].
  split; [reflexivity|]. split; [reflexivity|]. split; [|split].
  - rewrite (main_booted env fuel Hw Hl). unfold finish.
    pose proof (main_loop_exits env fuel) as Hf. rewrite Hle in Hf. rewrite Hf.
    cbn [snd exec glfwTerminate log should_close].
    apply main_loop_exit_flag. exact Hf.
  - rewrite Hc. etransitivity.
    + apply (count_run_outside_loop is_terminate env (frames_run env fuel 0) true).
      intros i. apply count_frame_none; reflexivity.
    + rewrite count_shader_terminates. reflexivity.
  - exists (boot_calls ++ shader_calls env ++ geometry_calls ++
            flat_map (fun i => E_glfwWindowShouldClose :: frame_calls env true 3 1 i)
                     (seq 0 (frames_run env fuel 0))).
    rewrite Hc, <- !app_assoc. reflexivity.
Qed.

Lemma normal_exit_cleanup_witness :
  should_close (snd (main env_demo 5 world0)) = true /\
  count is_terminate (calls (snd (main env_demo 5 world0))) = 1%nat.
Proof.
  destruct (normal_exit_cleanup env_demo 5) as (_ & _ & Hs & Ht & _).
  - vm_compute. reflexivity.
  - split; [exact Hs | exact Ht].
Defined.

(** X5. Diagnostics are printed one per failure.  In a run past the bootstrap
    the number of output statements executed on the standard output (each
    prints one diagnostic: headline, newline, info log, end of line) is the
    number of failed steps among vertex compilation, fragment compilation and
    link; a run in which all three succeed writes nothing, however long it
    lasts. *)
Theorem one_diagnostic_per_failure (env : Env) (fuel : nat) :
  env_create_window env = true ->
  env_load_gl env = true ->
  count is_cout (calls (snd (main env fuel world0))) =
  ((if fst (vertex_compile env) then 0 else 1) +
   (if fst (fragment_compile env) then 0 else 1) +
   (if fst (link_result env) then 0 else 1))%nat.
Proof.
  intros Hw Hl. destruct (main_run env fuel Hw Hl) as (_ & Hc & _).
  rewrite Hc, count_run_outside_loop by (intros i; apply count_frame_none; reflexivity).
  rewrite count_shader_couts. destruct (loop_exits env fuel); cbn; lia.
Qed.

Lemma one_diagnostic_per_failure_witness :
  count is_cout (calls (snd (main env_all_broken 3 world0))) = 3%nat /\
  count is_cout (calls (snd (main env_idle 4 world0))) = 0%nat.
Proof.
  split.
  - rewrite (one_diagnostic_per_failure env_all_broken 3); reflexivity.
  - rewrite (one_diagnostic_per_failure env_idle 4); reflexivity.
Defined.

(** X6. A vertex shader that does not compile is reported with its own log
    and the run goes on.  After the failed status query the run fetches the
    info log of shader 1 into the 512-byte buffer, prints it under the VERTEX
    headline, and continues with the fragment shader; what is printed of the
    log is its beginning, at most 511 characters. *)
Theorem vertex_failure_reported (env : Env) (fuel : nat) :
  env_create_window env = true ->
  env_load_gl env = true ->
  fst (vertex_compile env) = false ->
  let log := snd (vertex_compile env) in
  let shown := copy_log 512 log in
  (exists pre post : list Event,
     calls (snd (main env fuel world0)) =
     pre ++
     [ E_glGetShaderiv 1 GL_COMPILE_STATUS;
       E_glGetShaderInfoLog 1 512;
       E_cout ("ERROR::SHADER::VERTEX::COMPILATION_FAILED" +:+ nl +:+ shown +:+ endl);
       E_glCreateShader GL_FRAGMENT_SHADER ] ++
     post) /\
  String.prefix shown log = true /\
  String.length shown = Nat.min 511 (String.length log).
Proof.
  intros Hw Hl Hfail. cbv zeta.
  split; [|apply copy_log_512].
  exists (boot_calls ++
          [ E_glCreateShader GL_VERTEX_SHADER; E_glShaderSource 1 vertexShaderSource;
            E_glCompileShader 1 ]).
  exists ([ E_glShaderSource 2 fragmentShaderSource; E_glCompileShader 2;
            E_glGetShaderiv 2 GL_COMPILE_STATUS ] ++
          report_calls (fst (fragment_compile env)) 1
                       "ERROR::SHADER::FRAGMENT::COMPILATION_FAILED"
                       (copy_log 512 (snd (vertex_compile env))) ++
          link_calls ++ link_report_calls env ++ geometry_calls ++
          flat_map (fun i => E_glfwWindowShouldClose :: frame_calls env true 3 1 i)
                   (seq 0 (frames_run env fuel 0)) ++
          (if loop_exits env fuel then [E_glfwWindowShouldClose; E_glfwTerminate] else [])).
  destruct (main_run env fuel Hw Hl) as (_ & Hc & _).
  rewrite Hc. unfold shader_calls, compile_calls, report_calls at 1. rewrite Hfail.
  rewrite <- !app_assoc. reflexivity.
Qed.

Lemma vertex_failure_reported_witness :
  String.length (copy_log 512 (snd (vertex_compile env_all_broken))) = 511%nat /\
  (511 < String.length (snd (vertex_compile env_all_broken)))%nat.
Proof.
  destruct (vertex_failure_reported env_all_broken 3) as (_ & _ & Hlen).
  - reflexivity.
  - reflexivity.
  - reflexivity.
  - split; [rewrite Hlen; reflexivity | vm_compute; lia].
Defined.

(** X7. A fragment shader that does not compile is reported with the log of
    the vertex shader, in every run: after the failed status query on shader 2
    the info log fetched is that of shader 1, its beginning is what the
    FRAGMENT diagnostic prints, and the info log of shader 2 is never
    fetched.  The run goes on with the program. *)
Theorem fragment_failure_reported (env : Env) (fuel : nat) :
  env_create_window env = true ->
  env_load_gl env = true ->
  fst (fragment_compile env) = false ->
  let tr := calls (snd (main env fuel world0)) in
  (exists pre post : list Event,
     tr =
     pre ++
     [ E_glGetShaderiv 2 GL_COMPILE_STATUS;
       E_glGetShaderInfoLog 1 512;
       E_cout ("ERROR::SHADER::FRAGMENT::COMPILATION_FAILED" +:+ nl +:+
               copy_log 512 (snd (vertex_compile env)) +:+ endl);
       E_glCreateProgram ] ++
     post) /\
  count (reads_log_of 2) tr = 0%nat.
Proof.
  intros Hw Hl Hfail. cbv zeta.
  destruct (main_run env fuel Hw Hl) as (_ & Hc & _).
  split.
  - exists (boot_calls ++
            compile_calls 1 GL_VERTEX_SHADER vertexShaderSource ++
            report_calls (fst (vertex_compile env)) 1
                         "ERROR::SHADER::VERTEX::COMPILATION_FAILED"
                         (copy_log 512 (snd (vertex_compile env))) ++
            [ E_glCreateShader GL_FRAGMENT_SHADER; E_glShaderSource 2 fragmentShaderSource;
              E_glCompileShader 2 ]).
    exists ([ E_glAttachShader 3 1; E_glAttachShader 3 2; E_glLinkProgram 3;
              E_glUseProgram 3; E_glDeleteShader 1; E_glDeleteShader 2;
              E_glGetProgramiv 3 GL_LINK_STATUS ] ++
            link_report_calls env ++ geometry_calls ++
            flat_map (fun i => E_glfwWindowShouldClose :: frame_calls env true 3 1 i)
                     (seq 0 (frames_run env fuel 0)) ++
            (if loop_exits env fuel then [E_glfwWindowShouldClose; E_glfwTerminate]
             else [])).
    rewrite Hc. unfold shader_calls, compile_calls, link_calls. rewrite Hfail.
    unfold report_calls at 2. rewrite <- !app_assoc. reflexivity.
  - rewrite Hc. etransitivity.
    + apply (count_run_outside_loop (reads_log_of 2) env _ (loop_exits env fuel)).
      intros i. apply count_frame_none; reflexivity.
    + unfold shader_calls, report_calls, link_report_calls. rewrite !count_app.
      destruct (fst (vertex_compile env)), (fst (fragment_compile env)),
        (fst (link_result env)), (loop_exits env fuel); reflexivity.
Qed.

Lemma fragment_failure_reported_witness :
  count (reads_log_of 2) (calls (snd (main env_fragment_broken 3 world0))) = 0%nat.
Proof.
  destruct (fragment_failure_reported env_fragment_broken 3) as (_ & Hn).
  - reflexivity.
  - reflexivity.
  - reflexivity.
  - exact Hn.
Defined.

(** X8. A program that does not link is reported with its own log and the run
    goes on.  After the failed status query the run fetches the info log of
    program 3, prints its beginning (at most 511 characters) under the
    linking headline, and continues with the geometry upload: the failure
    does not stop the run. *)
Theorem link_failure_reported (env : Env) (fuel : nat) :
  env_create_window env = true ->
  env_load_gl env = true ->
  fst (link_result env) = false ->
  let log := snd (link_result env) in
  let shown := copy_log 512 log in
  (exists pre post : list Event,
     calls (snd (main env fuel world0)) =
     pre ++
     [ E_glGetProgramiv 3 GL_LINK_STATUS;
       E_glGetProgramInfoLog 3 512;
       E_cout ("ERROR::SHADER::PROGRAM:: Linking failed" +:+ nl +:+ shown +:+ endl) ] ++
     geometry_calls ++ post) /\
  String.prefix shown log = true /\
  String.length shown = Nat.min 511 (String.length log).
Proof.
  intros Hw Hl Hfail. cbv zeta.
  split; [|apply copy_log_512].
  destruct (main_run env fuel Hw Hl) as (_ & Hc & _).
  exists (boot_calls ++
          compile_calls 1 GL_VERTEX_SHADER vertexShaderSource ++
          report_calls (fst (vertex_compile env)) 1
                       "ERROR::SHADER::VERTEX::COMPILATION_FAILED"
                       (copy_log 512 (snd (vertex_compile env))) ++
          compile_calls 2 GL_FRAGMENT_SHADER fragmentShaderSource ++
          report_calls (fst (fragment_compile env)) 1
                       "ERROR::SHADER::FRAGMENT::COMPILATION_FAILED"
                       (copy_log 512 (snd (vertex_compile env))) ++
          [ E_glCreateProgram; E_glAttachShader 3 1; E_glAttachShader 3 2;
            E_glLinkProgram 3; E_glUseProgram 3; E_glDeleteShader 1; E_glDeleteShader 2 ]).
  exists (flat_map (fun i => E_glfwWindowShouldClose :: frame_calls env true 3 1 i)
                   (seq 0 (frames_run env fuel 0)) ++
          (if loop_exits env fuel then [E_glfwWindowShouldClose; E_glfwTerminate] else [])).
  rewrite Hc. unfold shader_calls, link_calls, link_report_calls. rewrite Hfail.
  rewrite <- !app_assoc. reflexivity.
Qed.

Lemma link_failure_reported_witness :
  String.length (copy_log 512 (snd (link_result env_link_broken))) = 31%nat.
Proof.
  destruct (link_failure_reported env_link_broken 3) as (_ & _ & Hlen).
  - reflexivity.
  - reflexivity.
  - reflexivity.
  - rewrite Hlen. reflexivity.
Defined.
